(** * xlsform_orm: surveys as typed records, and their three-sheet form

    A shallow embedding of [xlsform_orm.py]: the pydantic models ([Logic],
    [Choice], [Range], [Question], [QuestionGroup], [Survey]) with their
    validators, the encoder [items_to_dfs] / [prep_for_excel] /
    [Survey.get_dfs], and the decoder [get_survey_args] with its helpers
    [link_choices], [group_items], [drop_nan_dict] and [get_choice_dict].

    Python values are an inductive type [PyVal]; a dict with string keys is
    an association list in insertion order; an exception is the [Raise]
    branch of [result]. *)

From Stdlib Require Import List String Ascii ZArith Bool Lia.
From Stdlib Require Import Numbers.DecimalString.
Import ListNotations.
Open Scope string_scope.

Set Warnings "-register-all".

(** ** Exceptions *)

Inductive PyError : Type :=
| ValidationError   (* pydantic.ValidationError *)
| KeyError
| ValueError
| TypeError
| AttributeError
| IndexError.

Inductive result (A : Type) : Type :=
| Ok (a : A)
| Raise (e : PyError).

Arguments Ok {A} a.
Arguments Raise {A} e.

Definition bind {A B : Type} (r : result A) (k : A -> result B) : result B :=
  match r with
  | Ok a => k a
  | Raise e => Raise e
  end.

Notation "x <- e ;; k" := (bind e (fun x => k))
  (at level 61, e at next level, right associativity).

Fixpoint mapM {A B : Type} (f : A -> result B) (l : list A) : result (list B) :=
  match l with
  | [] => Ok []
  | x :: r => y <- f x ;; ys <- mapM f r ;; Ok (y :: ys)
  end.

Definition is_ok {A : Type} (r : result A) : bool :=
  match r with Ok _ => true | Raise _ => false end.

(** ** Python [str] operations used by the module *)

Definition str_in (s : string) (l : list string) : bool :=
  existsb (String.eqb s) l.

(** [s.startswith(p)] *)
Definition startswith (s p : string) : bool := String.prefix p s.

(** [s[n:]] *)
Fixpoint str_from (n : nat) (s : string) : string :=
  match n, s with
  | O, _ => s
  | S _, EmptyString => EmptyString
  | S n', String _ r => str_from n' r
  end.

(** [p in s] for two strings *)
Fixpoint contains (s p : string) : bool :=
  String.prefix p s ||
  match s with
  | EmptyString => false
  | String _ r => contains r p
  end.

(** The characters [str.split()] treats as separators (the ASCII ones). *)
Definition is_space (c : ascii) : bool :=
  let n := nat_of_ascii c in
  ((9 <=? n)%nat && (n <=? 13)%nat) || ((28 <=? n)%nat && (n <=? 32)%nat).

Fixpoint split_go (s : string) (cur : string) : list string :=
  match s with
  | EmptyString => if String.eqb cur "" then [] else [cur]
  | String c r =>
      if is_space c
      then (if String.eqb cur "" then split_go r "" else cur :: split_go r "")
      else split_go r (cur ++ String c "")
  end.

(** [s.split()] *)
Definition split (s : string) : list string := split_go s "".

Definition lower_ascii (c : ascii) : ascii :=
  let n := nat_of_ascii c in
  if ((65 <=? n)%nat && (n <=? 90)%nat) then ascii_of_nat (n + 32) else c.

(** [s.lower()] *)
Fixpoint lower (s : string) : string :=
  match s with
  | EmptyString => EmptyString
  | String c r => String (lower_ascii c) (lower r)
  end.

(** [sep.join(l)] *)
Fixpoint join (sep : string) (l : list string) : string :=
  match l with
  | [] => ""
  | [x] => x
  | x :: r => x ++ sep ++ join sep r
  end.

(** [str(z)] for an int *)
Definition str_of_Z (z : Z) : string := NilEmpty.string_of_int (Z.to_int z).

Definition hex_digit (n : nat) : ascii :=
  if (n <? 10)%nat then ascii_of_nat (48 + n) else ascii_of_nat (87 + n).

(** One character of [repr(s)], [q] being the chosen quote. *)
Definition repr_char (q : ascii) (c : ascii) : string :=
  let n := nat_of_ascii c in
  if Ascii.eqb c q || Ascii.eqb c "\"%char then String "\" (String c "")
  else if (n =? 9)%nat then "\t"
  else if (n =? 10)%nat then "\n"
  else if (n =? 13)%nat then "\r"
  else if ((n <? 32)%nat || (n =? 127)%nat)
       then String "\" (String "x" (String (hex_digit (n / 16)) (String (hex_digit (n mod 16)) "")))
  else String c "".

Fixpoint repr_chars (q : ascii) (s : string) : string :=
  match s with
  | EmptyString => EmptyString
  | String c r => repr_char q c ++ repr_chars q r
  end.

Definition dquote : ascii := ascii_of_nat 34.

(** [repr(s)] for a str: single quotes, unless the text holds a single
    quote and no double quote. *)
Definition repr_str (s : string) : string :=
  let q := if contains s "'" && negb (contains s (String dquote ""))
           then dquote else "'"%char in
  String q (repr_chars q s ++ String q "").

(** ** Python values

    What a cell of a DataFrame or a value of a dict can hold.  A float is
    carried by the text [repr] prints for it (no arithmetic is ever done on
    one); NaN is the float ["nan"]. *)

Inductive PyVal : Type :=
| PNone
| PBool (b : bool)
| PInt (z : Z)
| PFloat (repr : string)
| PStr (s : string)
| PList (l : list PyVal)
| PDict (d : list (string * PyVal))
| PEnum (cls member val : string).   (* an Enum member, [cls.member] *)

Definition NaN : PyVal := PFloat "nan".

(** A Python dict with [str] keys, in insertion order. *)
Definition Dict : Type := list (string * PyVal).

Fixpoint py_repr (v : PyVal) : string :=
  match v with
  | PNone => "None"
  | PBool true => "True"
  | PBool false => "False"
  | PInt z => str_of_Z z
  | PFloat r => r
  | PStr s => repr_str s
  | PList l => "[" ++ join ", " (map py_repr l) ++ "]"
  | PDict d =>
      "{" ++ join ", " (map (fun kv => repr_str (fst kv) ++ ": " ++ py_repr (snd kv)) d) ++ "}"
  | PEnum c m val => "<" ++ c ++ "." ++ m ++ ": " ++ repr_str val ++ ">"
  end.

(** [str(v)] *)
Definition py_str (v : PyVal) : string :=
  match v with
  | PStr s => s
  | PEnum c m _ => c ++ "." ++ m
  | _ => py_repr v
  end.

(** [float(z)] for an int, exact for [|z| < 10^16] (beyond that Python
    rounds and prints an exponent). *)
Definition float_of_Z (z : Z) : PyVal := PFloat (str_of_Z z ++ ".0").

(** The int a number stands for, when it is one: [True == 1 == 1.0]. *)
Definition as_int (v : PyVal) : option Z :=
  match v with
  | PBool b => Some (Z.b2z b)
  | PInt z => Some z
  | _ => None
  end.

(** [a == b] *)
Fixpoint py_eqb (a b : PyVal) : bool :=
  match a, b with
  | PNone, PNone => true
  | PStr s, PStr t => String.eqb s t
  | PFloat r, PFloat t => String.eqb r t && negb (String.eqb r "nan")
  | PFloat r, (PBool _ | PInt _) =>
      match as_int b with Some z => String.eqb r (str_of_Z z ++ ".0") | None => false end
  | (PBool _ | PInt _), PFloat r =>
      match as_int a with Some z => String.eqb r (str_of_Z z ++ ".0") | None => false end
  | (PBool _ | PInt _), (PBool _ | PInt _) =>
      match as_int a, as_int b with Some x, Some y => Z.eqb x y | _, _ => false end
  | PList l, PList m =>
      (fix go (l : list PyVal) (m : list PyVal) : bool :=
         match l, m with
         | [], [] => true
         | x :: l', y :: m' => py_eqb x y && go l' m'
         | _, _ => false
         end) l m
  | PDict d, PDict e =>
      Nat.eqb (List.length d) (List.length e) &&
      (fix go (d : list (string * PyVal)) : bool :=
         match d with
         | [] => true
         | (k, x) :: d' =>
             match (fix get (e : list (string * PyVal)) : option PyVal :=
                      match e with
                      | [] => None
                      | (k', y) :: e' => if String.eqb k k' then Some y else get e'
                      end) e with
             | Some y => py_eqb x y && go d'
             | None => false
             end
         end) d
  | PEnum c m _, PEnum c' m' _ => String.eqb c c' && String.eqb m m'
  | _, _ => false
  end.

(** ** Dict operations *)

Fixpoint dict_get (d : Dict) (k : string) : option PyVal :=
  match d with
  | [] => None
  | (k', v) :: r => if String.eqb k k' then Some v else dict_get r k
  end.

(** [d[k]] *)
Definition dict_item (d : Dict) (k : string) : result PyVal :=
  match dict_get d k with
  | Some v => Ok v
  | None => Raise KeyError
  end.

(** [d[k] = v]: an existing key keeps its place. *)
Fixpoint dict_set (d : Dict) (k : string) (v : PyVal) : Dict :=
  match d with
  | [] => [(k, v)]
  | (k', v') :: r =>
      if String.eqb k k' then (k, v) :: r else (k', v') :: dict_set r k v
  end.

Fixpoint dict_remove (d : Dict) (k : string) : Dict :=
  match d with
  | [] => []
  | (k', v') :: r =>
      if String.eqb k k' then r else (k', v') :: dict_remove r k
  end.

(** [del d[k]] *)
Definition dict_del (d : Dict) (k : string) : result Dict :=
  match dict_get d k with
  | Some _ => Ok (dict_remove d k)
  | None => Raise KeyError
  end.

(** ** Enums

    An Enum class is the list of its members, each with its name and its
    value.  pydantic stores the value ([use_enum_values]). *)

Definition Enum : Type := list (string * string).

Definition member_names (E : Enum) : list string := map fst E.
Definition member_values (E : Enum) : list string := map snd E.

(** [hasattr(E, s)] for a str [s]: the members of the class.  (The class
    also answers for Python's own attribute names, such as [__doc__];
    those are not XLSForm types and are left out.) *)
Definition hasattr (E : Enum) (s : string) : bool := str_in s (member_names E).

Definition same (s : string) : string * string := (s, s).

Definition LogicTypes : Enum :=
  map same ["trigger"; "skip"; "relevant"; "constraint"].

Definition GroupTypes : Enum := map same ["group"; "repeat"].

Definition QuestionTypes : Enum :=
  map same
    [ "text"; "integer"; "decimal"; "date"; "time"; "dateTime"; "select_one";
      "select_multiple"; "select_one_from_file"; "select_multiple_from_file";
      "rank"; "range"; "note"; "geopoint"; "geotrace"; "geoshape"; "image";
      "audio"; "file"; "barcode"; "begin"; "end"; "calculate"; "hidden";
      "username"; "email"; "start"; "deviceid" ].

Definition AppearanceAttributes : Enum :=
  [ ("multiline", "multiline"); ("minimal", "minimal"); ("quick", "quick");
    ("no_calendar", "no-calendar"); ("month_year", "month-year");
    ("year", "year"); ("horizontal_compact", "horizontal-compact");
    ("horizontal", "horizontal"); ("likert", "likert"); ("compact", "compact");
    ("quickcompact", "quickcompact"); ("field_list", "field-list");
    ("label", "label"); ("list_nolabel", "list-nolabel");
    ("table_list", "table-list"); ("signature", "signature"); ("draw", "draw");
    ("map", "map"); ("quick_map", "quick map");
    ("minimal_compact", "minimal compact"); ("image_map", "image-map");
    ("autocomplete", "autocomplete"); ("predictivetext", "predictivetext");
    ("nopredictivetext", "nopredictivetext"); ("week_number", "week-number");
    ("distress", "distress"); ("spinner", "spinner"); ("numbers", "numbers");
    ("calculator", "calculator"); ("thousands_sep", "thousands-sep");
    ("no_ticks", "no-ticks"); ("annotate", "annotate"); ("new_rear", "new-rear");
    ("new_front", "new-front"); ("hidden", "hidden"); ("geocode", "geocode");
    ("hide_input", "hide-input"); ("press_to_locate", "press-to-locate");
    ("spike", "spike"); ("spike_full_measure", "spike-full-measure");
    ("spike_point_to_point", "spike-point-to-point") ].

(** ** Compatibility tables *)

Definition base_appearance_combos : list (string * string) :=
  [ ("minimal", "select_one"); ("minimal", "select_multiple");
    ("minimal", "barcode"); ("minimal", "begin"); ("minimal_compact", "begin");
    ("compact", "select_one"); ("compact", "select_multiple");
    ("compact", "begin"); ("horizontal", "select_one");
    ("horizontal", "select_multiple"); ("horizontal_compact", "select_one");
    ("horizontal_compact", "select_multiple"); ("image_map", "select_one");
    ("image_map", "select_multiple"); ("autocomplete", "select_one");
    ("likert", "select_one"); ("multiline", "text"); ("multiline", "image");
    ("multiline", "file"); ("predictivetext", "text");
    ("nopredictivetext", "text"); ("year", "date"); ("month_year", "date");
    ("week_number", "date"); ("distress", "integer"); ("spinner", "integer");
    ("spinner", "decimal"); ("numbers", "integer"); ("numbers", "decimal");
    ("calculator", "integer"); ("calculator", "decimal");
    ("thousands_sep", "decimal"); ("no_ticks", "range"); ("draw", "image");
    ("annotate", "image"); ("signature", "image"); ("new_rear", "image");
    ("new_front", "image"); ("field_list", "begin"); ("table_list", "begin");
    ("geocode", "text"); ("hide_input", "geopoint");
    ("press_to_locate", "geopoint"); ("press_to_locate", "geotrace");
    ("press_to_locate", "geoshape"); ("spike", "image");
    ("spike_full_measure", "image"); ("spike_point_to_point", "image") ].

Definition hidden_appearance_combos : list (string * string) :=
  map (fun t => ("hidden", snd t)) QuestionTypes.

Definition Appearance_Question_Combos : list (string * string) :=
  (base_appearance_combos ++ hidden_appearance_combos)%list.

(** [(appearance_attribute, type) in Appearance_Question_Combos]; the
    validator passes [values.get("type")], which is [None] when the type
    field failed. *)
Definition check_appearance_question_combo
    (appearance_attribute : string) (type_ : option string) : bool :=
  match type_ with
  | None => false
  | Some t =>
      existsb (fun c => String.eqb appearance_attribute (fst c) && String.eqb t (snd c))
              Appearance_Question_Combos
  end.

(** The names a question may not take ([v in RESERVED_NAMES] compares
    whole strings, case included). *)
Definition RESERVED_NAMES : list string :=
  [ "A"; "ABS"; "ABSENT"; "ACCESS"; "ACCORDING"; "ACCOUNT"; "ACTIVATE"; "ADA";
    "ADD"; "ADMIN"; "ADVISE"; "AFTER"; "ALL"; "ALL_ROWS"; "ALLOCATE"; "ALLOW";
    "ALTER"; "ANALYSE"; "ANALYZE"; "AND"; "ANY"; "ARCHIVE"; "ARCHIVELOG"; "ARE";
    "AREA"; "ARRAY"; "ARRAY_AGG"; "ARRAY_MAX_CARDINALITY"; "AS"; "ASC";
    "ASENSITIVE"; "ASSOCIATE"; "ASUTIME"; "ASYMMETRIC"; "AT"; "ATOMIC";
    "ATTRIBUTES"; "AUDIT"; "AUTHENTICATED"; "AUTHORIZATION"; "AUTOEXTEND";
    "AUTOMATIC"; "AUX"; "AUXILIARY"; "AVG"; "BACKUP"; "BASE64"; "BECOME";
    "BEFORE"; "BEGIN"; "BEGIN_FRAME"; "BEGIN_PARTITION"; "BERNOULLI"; "BETWEEN";
    "BFILE"; "BINARY"; "BIT_LENGTH"; "BITMAP"; "BLOB"; "BLOCK"; "BLOCKED";
    "BODY"; "BOM"; "BOTH"; "BREADTH"; "BREAK"; "BROWSE"; "BUFFERPOOL"; "BULK";
    "BY"; "C"; "CACHE"; "CACHE_INSTANCES"; "CALL"; "CANCEL"; "CAPTURE";
    "CARDINALITY"; "CASCADE"; "CASCADED"; "CASE"; "CAST"; "CATALOG_NAME";
    "CCSID"; "CEIL"; "CEILING"; "CFILE"; "CHAINED"; "CHANGE"; "CHAR"; "CHAR_CS";
    "CHAR_LENGTH"; "CHARACTER"; "CHARACTER_LENGTH"; "CHARACTER_SET_CATALOG";
    "CHARACTER_SET_NAME"; "CHARACTER_SET_SCHEMA"; "CHARACTERS"; "CHECK";
    "CHECKPOINT"; "CHOOSE"; "CHUNK"; "CLASS_ORIGIN"; "CLEAR"; "CLOB"; "CLONE";
    "CLOSE"; "CLOSE_CACHED_OPEN_CURSORS"; "CLUSTER"; "CLUSTERED"; "COALESCE";
    "COBOL"; "COLLATE"; "COLLATION"; "COLLATION_CATALOG"; "COLLATION_NAME";
    "COLLATION_SCHEMA"; "COLLECT"; "COLLECTION"; "COLLID"; "COLUMN";
    "COLUMN_NAME"; "COLUMNS"; "COMMAND_FUNCTION"; "COMMAND_FUNCTION_CODE";
    "COMMENT"; "COMMIT"; "COMMITTED"; "COMPATIBILITY"; "COMPILE"; "COMPLETE";
    "COMPOSITE_LIMIT"; "COMPRESS"; "COMPUTE"; "CONCAT"; "CONCURRENTLY";
    "CONDITION"; "CONDITION_NUMBER"; "CONNECT"; "CONNECT_TIME"; "CONNECTION";
    "CONNECTION_NAME"; "CONSTRAINT"; "CONSTRAINT_CATALOG"; "CONSTRAINT_NAME";
    "CONSTRAINT_SCHEMA"; "CONSTRAINTS"; "CONSTRUCTOR"; "CONTAINS";
    "CONTAINSTABLE"; "CONTENT"; "CONTENTS"; "CONTINUE"; "CONTROL"; "CONTROLFILE";
    "CONVERT"; "CORR"; "CORRESPONDING"; "COST"; "COUNT"; "COVAR_POP";
    "COVAR_SAMP"; "CPU_PER_CALL"; "CPU_PER_SESSION"; "CREATE"; "CREATIONDATE";
    "CREATOR"; "CROSS"; "CUBE"; "CUME_DIST"; "CURREN_USER"; "CURRENT";
    "CURRENT_CATALOG"; "CURRENT_CONNECTION"; "CURRENT_DATE";
    "CURRENT_DEFAULT_TRANSFORM_GROUP"; "CURRENT_LC_CTYPE"; "CURRENT_PATH";
    "CURRENT_ROLE"; "CURRENT_ROW"; "CURRENT_SCHEMA"; "CURRENT_TIME";
    "CURRENT_TIMESTAMP"; "CURRENT_TRANSFORM_GROUP_FOR_TYPE"; "CURRENT_USER";
    "CURRENT_UTCDATE"; "CURRENT_UTCTIME"; "CURRENT_UTCTIMESTAMP"; "CURRVAL";
    "CURSOR"; "CURSOR_NAME"; "CYCLE"; "DANGLING"; "DATA"; "DATABASE"; "DATAFILE";
    "DATAFILES"; "DATALINK"; "DATAOBJNO"; "DATE"; "DATETIME_INTERVAL_CODE";
    "DATETIME_INTERVAL_PRECISION"; "DAY"; "DAYS"; "DB"; "DBA"; "DBCC"; "DBHIGH";
    "DBINFO"; "DBLOW"; "DBMAC"; "DEALLOCATE"; "DEBUG"; "DEC"; "DECIMAL";
    "DECLARE"; "DEFAULT"; "DEFERRABLE"; "DEFERRED"; "DEFINED"; "DEGREE";
    "DELETE"; "DENSE_RANK"; "DENY"; "DEPTH"; "DEREF"; "DERIVED"; "DESC";
    "DESCRIBE"; "DESCRIPTOR"; "DETERMINISTIC"; "DIAGNOSTICS"; "DIRECTORY";
    "DISABLE"; "DISALLOW"; "DISCONNECT"; "DISK"; "DISMOUNT"; "DISPATCH";
    "DISTINCT"; "DISTRIBUTED"; "DLNEWCOPY"; "DLPREVIOUSCOPY"; "DLURLCOMPLETE";
    "DLURLCOMPLETEONLY"; "DLURLCOMPLETEWRITE"; "DLURLPATH"; "DLURLPATHONLY";
    "DLURLPATHWRITE"; "DLURLSCHEME"; "DLURLSERVER"; "DLVALUE"; "DML"; "DO";
    "DOCUMENT"; "DOUBLE"; "DROP"; "DSSIZE"; "DUMP"; "DYNAMIC";
    "DYNAMIC_FUNCTION"; "DYNAMIC_FUNCTION_CODE"; "EACH"; "EDITDATE"; "EDITOR";
    "EDITPROC"; "ELEMENT"; "ELSE"; "ELSEIF"; "ELSIF"; "EMAXX"; "EMAXY"; "EMAXZ";
    "EMINX"; "EMINY"; "EMINZ"; "EMPTY"; "ENABLE"; "ENCODING"; "ENCRYPTION";
    "END"; "END_FRAME"; "END_PARTITION"; "END-EXEC"; "ENDING"; "ENFORCE";
    "ENFORCED"; "ENTITY"; "ENTRY"; "EQUALS"; "ERASE"; "ERRLVL"; "ESCAPE";
    "EVERY"; "EXCEPT"; "EXCEPTION"; "EXCEPTIONS"; "EXCHANGE"; "EXCLUDING";
    "EXCLUSIVE"; "EXEC"; "EXECUTE"; "EXISTS"; "EXIT"; "EXP"; "EXPIRE"; "EXPLAIN";
    "EXPRESSION"; "EXTENT"; "EXTENTS"; "EXTERNAL"; "EXTERNALLY";
    "FAILED_LOGIN_ATTEMPTS"; "FALSE"; "FAST"; "FENCED"; "FETCH"; "FID";
    "FIELDPROC"; "FILE"; "FILLFACTOR"; "FILTER"; "FINAL"; "FIRST"; "FIRST_ROWS";
    "FIRST_VALUE"; "FLAG"; "FLAGGER"; "FLOAT"; "FLOB"; "FLOOR"; "FLUSH"; "FOR";
    "FORCE"; "FOREIGN"; "FORTRAN"; "FOUND"; "FRAME_ROW"; "FREE"; "FREELIST";
    "FREELISTS"; "FREETEXT"; "FREETEXTTABLE"; "FREEZE"; "FROM"; "FS"; "FULL";
    "FUNCTION"; "FUSION"; "G"; "GENERAL"; "GENERATED"; "GET"; "GLOBAL";
    "GLOBAL_NAME"; "GLOBALID"; "GLOBALLY"; "GO"; "GOTO"; "GRANT"; "GROUP";
    "GROUPING"; "GROUPS"; "HANDLER"; "HASH"; "HASHKEYS"; "HAVING"; "HEADER";
    "HEAP"; "HEX"; "HIERARCHY"; "HOLD"; "HOLDLOCK"; "HOUR"; "HOURS"; "ID";
    "IDENTIFIED"; "IDENTITY"; "IDENTITY_INSERT"; "IDENTITYCOL"; "IDGENERATORS";
    "IDLE_TIME"; "IF"; "IGNORE"; "ILIKE"; "IMMEDIATE"; "IMMEDIATELY";
    "IMPLEMENTATION"; "IMPORT"; "IN"; "INCLUDING"; "INCLUSIVE"; "INCREMENT";
    "IND_PARTITION"; "INDENT"; "INDEX"; "INDEXED"; "INDEXES"; "INDICATOR";
    "INHERIT"; "INITIAL"; "INITIALLY"; "INITRANS"; "INNER"; "INOUT";
    "INSENSITIVE"; "INSERT"; "INSTANCE"; "INSTANCES"; "INSTANTIABLE"; "INSTEAD";
    "INT"; "INTEGER"; "INTEGRITY"; "INTERMEDIATE"; "INTERSECT"; "INTERSECTION";
    "INTO"; "IS"; "ISNULL"; "ISOBID"; "ISOLATION"; "ISOLATION_LEVEL"; "ITERATE";
    "JAR"; "JOIN"; "K"; "KEEP"; "KEY"; "KEY_MEMBER"; "KEY_TYPE"; "KILL"; "LABEL";
    "LAG"; "LANGUAGE"; "LAST"; "LAST_VALUE"; "LATERAL"; "LAYER"; "LC_CTYPE";
    "LEAD"; "LEADING"; "LEAVE"; "LEFT"; "LEN"; "LENGTH"; "LESS"; "LEVEL";
    "LIBRARY"; "LIKE"; "LIKE_REGEX"; "LIMIT"; "LINENO"; "LINK"; "LIST"; "LN";
    "LOAD"; "LOB"; "LOCAL"; "LOCALE"; "LOCALTIME"; "LOCALTIMESTAMP"; "LOCATOR";
    "LOCATORS"; "LOCK"; "LOCKED"; "LOCKMAX"; "LOCKSIZE"; "LOG"; "LOGFILE";
    "LOGGING"; "LOGICAL_READS_PER_CALL"; "LOGICAL_READS_PER_SESSION"; "LONG";
    "LOOP"; "LOWER"; "M"; "MAINTAINED"; "MANAGE"; "MAP"; "MASTER"; "MATCHED";
    "MATERIALIZED"; "MAX"; "MAX_CARDINALITY"; "MAX_MEASURE"; "MAXARCHLOGS";
    "MAXDATAFILES"; "MAXEXTENTS"; "MAXINSTANCES"; "MAXLOGFILES"; "MAXLOGHISTORY";
    "MAXLOGMEMBERS"; "MAXSIZE"; "MAXTRANS"; "MAXVALUE"; "MEMBER"; "MERGE";
    "MESSAGE_LENGTH"; "MESSAGE_OCTET_LENGTH"; "MESSAGE_TEXT"; "METHOD";
    "MICROSECOND"; "MICROSECONDS"; "MIN"; "MIN_MEASURE"; "MINEXTENTS"; "MINIMUM";
    "MINUS"; "MINUTE"; "MINUTES"; "MINVALUE"; "MLS_LABEL_FORMAT"; "MLSLABEL";
    "MOD"; "MODE"; "MODIFIES"; "MODIFY"; "MODULE"; "MONTH"; "MONTHS"; "MORE";
    "MOUNT"; "MOVE"; "MTS_DISPATCHERS"; "MULTISET"; "MUMPS"; "NAMESPACE";
    "NATIONAL"; "NATURAL"; "NCHAR"; "NCHAR_CS"; "NCLOB"; "NEEDED"; "NESTED";
    "NESTING"; "NETWORK"; "NEW"; "NEXT"; "NEXTVAL"; "NFC"; "NFD"; "NFKC"; "NFKD";
    "NIL"; "NO"; "NOARCHIVELOG"; "NOAUDIT"; "NOCACHE"; "NOCHECK"; "NOCOMPRESS";
    "NOCYCLE"; "NOFORCE"; "NOLOGGING"; "NOMAXVALUE"; "NOMINVALUE";
    "NONCLUSTERED"; "NONE"; "NOORDER"; "NOOVERRIDE"; "NOPARALLEL"; "NOREVERSE";
    "NORMAL"; "NORMALIZE"; "NORMALIZED"; "NOSORT"; "NOT"; "NOTHING"; "NOTNULL";
    "NOWAIT"; "NTH_VALUE"; "NTILE"; "NULL"; "NULLABLE"; "NULLIF"; "NULLS";
    "NUMBER"; "NUMERIC"; "NUMOFPTS"; "NUMPARTS"; "NVARCHAR2"; "OBID"; "OBJECT";
    "OBJECTID"; "OBJNO"; "OBJNO_REUSE"; "OCCURRENCES_REGEX"; "OCTET_LENGTH";
    "OCTETS"; "OF"; "OFF"; "OFFLINE"; "OFFSET"; "OFFSETS"; "OID"; "OIDINDEX";
    "OLD"; "ON"; "ONLINE"; "ONLY"; "OPCODE"; "OPEN"; "OPENDATASOURCE";
    "OPENQUERY"; "OPENROWSET"; "OPENXML"; "OPTIMAL"; "OPTIMIZATION"; "OPTIMIZE";
    "OPTIMIZER_GOAL"; "OPTION"; "OR"; "ORDER"; "ORDERING"; "ORDINALITY";
    "ORGANIZATION"; "OSLABEL"; "OTHERS"; "OUT"; "OUTER"; "OUTPUT"; "OVER";
    "OVERFLOW"; "OVERLAPS"; "OVERRIDING"; "OWN"; "P"; "PACKAGE"; "PAD"; "PADDED";
    "PARALLEL"; "PARAMETER"; "PARAMETER_MODE"; "PARAMETER_NAME";
    "PARAMETER_ORDINAL_POSITION"; "PARAMETER_SPECIFIC_CATALOG";
    "PARAMETER_SPECIFIC_NAME"; "PARAMETER_SPECIFIC_SCHEMA"; "PART"; "PARTITION";
    "PARTITIONED"; "PARTITIONING"; "PASCAL"; "PASSTHROUGH"; "PASSWORD";
    "PASSWORD_GRACE_TIME"; "PASSWORD_LIFE_TIME"; "PASSWORD_LOCK_TIME";
    "PASSWORD_REUSE_MAX"; "PASSWORD_REUSE_TIME"; "PASSWORD_VERIFY_FUNCTION";
    "PATH"; "PCTFREE"; "PCTINCREASE"; "PCTTHRESHOLD"; "PCTUSED"; "PCTVERSION";
    "PERCENT"; "PERCENT_RANK"; "PERCENTILE_CONT"; "PERCENTILE_DISC"; "PERIOD";
    "PERMANENT"; "PERMISSION"; "PIECESIZE"; "PIVOT"; "PLACING"; "PLAN"; "PLI";
    "PLSQL_DEBUG"; "POINTS"; "PORTION"; "POSITION_REGEX"; "POST_TRANSACTION";
    "POWER"; "PRECEDES"; "PRECISION"; "PREPARE"; "PRESERVE"; "PREVVAL";
    "PRIMARY"; "PRINT"; "PRIOR"; "PRIQTY"; "PRIVATE"; "PRIVATE_SGA"; "PRIVILEGE";
    "PRIVILEGES"; "PROC"; "PROCEDURE"; "PROFILE"; "PROGRAM"; "PSID"; "PUBLIC";
    "PURGE"; "QUERY"; "QUERYNO"; "QUEUE"; "QUOTA"; "RAISERROR"; "RANGE"; "RANK";
    "RAW"; "RBA"; "READ"; "READS"; "READTEXT"; "READUP"; "REAL"; "REBUILD";
    "RECONFIGURE"; "RECOVER"; "RECOVERABLE"; "RECOVERY"; "REF"; "REFERENCES";
    "REFERENCING"; "REFRESH"; "REGR_AVGX"; "REGR_AVGY"; "REGR_COUNT";
    "REGR_INTERCEPT"; "REGR_R2"; "REGR_SLOPE"; "REGR_SXX"; "REGR_SXY";
    "REGR_SYY"; "RELEASE"; "RENAME"; "REPEAT"; "REPLACE"; "REPLICATION";
    "REQUIRING"; "RESET"; "RESETLOGS"; "RESIGNAL"; "RESIZE"; "RESOURCE";
    "RESPECT"; "RESTORE"; "RESTRICT"; "RESTRICTED"; "RESULT";
    "RESULT_SET_LOCATOR"; "RETURN"; "RETURNED_CARDINALITY"; "RETURNED_LENGTH";
    "RETURNED_OCTET_LENGTH"; "RETURNED_SQLSTATE"; "RETURNING"; "RETURNS";
    "REUSE"; "REVERSE"; "REVERT"; "REVOKE"; "RIGHT"; "ROLE"; "ROLES"; "ROLLBACK";
    "ROLLUP"; "ROUND_CEILING"; "ROUND_DOWN"; "ROUND_FLOOR"; "ROUND_HALF_DOWN";
    "ROUND_HALF_EVEN"; "ROUND_HALF_UP"; "ROUND_UP"; "ROUTINE"; "ROUTINE_CATALOG";
    "ROUTINE_NAME"; "ROUTINE_SCHEMA"; "ROW"; "ROW_COUNT"; "ROW_NUMBER";
    "ROWCOUNT"; "ROWGUIDCOL"; "ROWID"; "ROWNUM"; "ROWS"; "ROWSET"; "RULE"; "RUN";
    "SAMPLE"; "SAVE"; "SAVEPOINT"; "SB4"; "SCALE"; "SCAN_INSTANCES"; "SCHEMA";
    "SCHEMA_NAME"; "SCN"; "SCOPE"; "SCOPE_CATALOG"; "SCOPE_NAME"; "SCOPE_SCHEMA";
    "SCRATCHPAD"; "SD_ALL"; "SD_INHIBIT"; "SD_SHOW"; "SECOND"; "SECONDS";
    "SECQTY"; "SECTION"; "SECURITY"; "SECURITYAUDIT"; "SEG_BLOCK"; "SEG_FILE";
    "SEGMENT"; "SELECT"; "SELECTIVE"; "SELF"; "SEMANTICKEYPHRASETABLE";
    "SEMANTICSIMILARITYDETAILSTABLE"; "SEMANTICSIMILARITYTABLE"; "SENSITIVE";
    "SEQUENCE"; "SERIALIZABLE"; "SERVER_NAME"; "SESSION";
    "SESSION_CACHED_CURSORS"; "SESSION_USER"; "SESSIONS_PER_USER"; "SET"; "SETS";
    "SETUSER"; "SHAPE"; "SHARE"; "SHARED"; "SHARED_POOL"; "SHRINK"; "SHUTDOWN";
    "SIGNAL"; "SIMILAR"; "SIMPLE"; "SIZE"; "SKIP"; "SKIP_UNUSABLE_INDEXES";
    "SMALLINT"; "SNAPSHOT"; "SOME"; "SORT"; "SOURCE"; "SPACE"; "SPECIFIC";
    "SPECIFIC_NAME"; "SPECIFICATION"; "SPECIFICTYPE"; "SPLIT"; "SQL";
    "SQL_TRACE"; "SQLCODE"; "SQLERROR"; "SQLEXCEPTION"; "SQLSTATE"; "SQLWARNING";
    "SQRT"; "STANDARD"; "STANDBY"; "START"; "STATE"; "STATEMENT"; "STATEMENT_ID";
    "STATIC"; "STATISTICS"; "STAY"; "STDDEV_POP"; "STDDEV_SAMP"; "STOGROUP";
    "STOP"; "STORAGE"; "STORE"; "STORES"; "STRUCTURE"; "STYLE";
    "SUBCLASS_ORIGIN"; "SUBMULTISET"; "SUBSTRING_REGEX"; "SUCCEEDS";
    "SUCCESSFUL"; "SUM"; "SUMMARY"; "SWITCH"; "SYMMETRIC"; "SYNONYM";
    "SYS_OP_ENFORCE_NOT_NULL$"; "SYS_OP_NTCIMG$"; "SYSDATE"; "SYSDBA"; "SYSOPER";
    "SYSTEM"; "SYSTEM_TIME"; "SYSTEM_USER"; "SYSTIME"; "SYSTIMESTAMP"; "SYSUUID";
    "T"; "TABLE"; "TABLE_NAME"; "TABLES"; "TABLESAMPLE"; "TABLESPACE";
    "TABLESPACE_NO"; "TABNO"; "TEMPORARY"; "TEXTSIZE"; "THAN"; "THE"; "THEN";
    "THREAD"; "TIES"; "TIME"; "TIMESTAMP"; "TIMEZONE_HOUR"; "TIMEZONE_MINUTE";
    "TO"; "TOKEN"; "TOP"; "TOP_LEVEL_COUNT"; "TOPLEVEL"; "TRACE"; "TRACING";
    "TRAILING"; "TRAN"; "TRANSACTION"; "TRANSACTION_ACTIVE";
    "TRANSACTIONS_COMMITTED"; "TRANSACTIONS_ROLLED_BACK"; "TRANSFORM";
    "TRANSFORMS"; "TRANSITIONAL"; "TRANSLATE"; "TRANSLATE_REGEX"; "TRANSLATION";
    "TRIGGER"; "TRIGGER_CATALOG"; "TRIGGER_NAME"; "TRIGGER_SCHEMA"; "TRIGGERS";
    "TRIM_ARRAY"; "TRUE"; "TRUNCATE"; "TRY_CONVERT"; "TSEQUAL"; "TX"; "TYPE";
    "UB2"; "UBA"; "UESCAPE"; "UID"; "UNARCHIVED"; "UNDER"; "UNDO"; "UNION";
    "UNIQUE"; "UNLIMITED"; "UNLINK"; "UNLOCK"; "UNNAMED"; "UNNEST"; "UNPIVOT";
    "UNRECOVERABLE"; "UNTIL"; "UNTYPED"; "UNUSABLE"; "UNUSED"; "UPDATABLE";
    "UPDATE"; "UPDATETEXT"; "UPPER"; "URI"; "USAGE"; "USE"; "USER";
    "USER_DEFINED_TYPE_CATALOG"; "USER_DEFINED_TYPE_CODE";
    "USER_DEFINED_TYPE_NAME"; "USER_DEFINED_TYPE_SCHEMA"; "USING"; "UTCDATE";
    "UTCTIME"; "UTCTIMESTAMP"; "VALIDATE"; "VALIDATION"; "VALIDPROC"; "VALUE";
    "VALUE_OF"; "VALUES"; "VAR_POP"; "VAR_SAMP"; "VARBINARY"; "VARCHAR";
    "VARCHAR2"; "VARIABLE"; "VARIADIC"; "VARIANT"; "VARYING"; "VCAT"; "VERBOSE";
    "VERSIONING"; "VIEW"; "VOLATILE"; "VOLUMES"; "WAITFOR"; "WHEN"; "WHENEVER";
    "WHERE"; "WHILE"; "WIDTH_BUCKET"; "WINDOW"; "WITH"; "WITHIN"; "WITHIN GROUP";
    "WITHOUT"; "WLM"; "WORK"; "WRITE"; "WRITEDOWN"; "WRITETEXT"; "WRITEUP";
    "XID"; "XMLAGG"; "XMLBINARY"; "XMLCAST"; "XMLCOMMENT"; "XMLDECLARATION";
    "XMLDOCUMENT"; "XMLEXISTS"; "XMLITERATE"; "XMLNAMESPACES"; "XMLQUERY";
    "XMLSCHEMA"; "XMLTABLE"; "XMLTEXT"; "XMLVALIDATE"; "YEAR"; "YEARS"; "ZONE" ].

(** ** Entities *)

Record Logic : Type := {
  l_type : string;
  l_expression : string;
  l_message : option string
}.

Record Choice : Type := {
  c_value : string;
  c_label : string
}.

(** [Union[int, float]]; a float by its text, as in [PFloat]. *)
Inductive number : Type :=
| NInt (z : Z)
| NFloat (repr : string).

Definition number_val (n : number) : PyVal :=
  match n with
  | NInt z => PInt z
  | NFloat r => PFloat r
  end.

Record Range : Type := {
  r_start : number;
  r_end : number;
  r_step : number
}.

(** A Question, both as the keyword arguments of [Question(...)] ([None]
    for an argument left out) and as the object that call builds.  [q_type]
    and [q_appearance_attributes] hold enum values ([use_enum_values]).
    [q_range] is a [Range]: a dict with start, end and step is coerced to
    the same [Range]; a dict without them is not modelled. *)
Record Question : Type := {
  q_type : string;
  q_name : string;
  q_label : string;
  q_required : option bool;
  q_default : option string;
  q_hint : option string;
  q_logics : option (list Logic);
  q_calculation : option string;
  q_range : option Range;
  q_accuracyThreshold : option string;          (* a float, by its text *)
  q_choices : option (list Choice);
  q_allow_other : option bool;
  q_file : option string;
  q_parameters : option Dict;
  q_appearance_attributes : option string
}.

(** What the [type] attribute of a QuestionGroup holds: a str when the
    caller passed one, the Enum member itself when it is the field's
    default [GroupTypes.group] or the [GroupTypes.repeat] that
    [validate_repeat] assigns. *)
Inductive GType : Type :=
| GStr (s : string)
| GMember (member : string).

Definition int_or_str : Type := (Z + string)%type.

Record GroupHead : Type := {
  g_type : GType;
  g_name : string;
  g_label : string;
  g_logics : option (list Logic);
  g_repeat_count : option int_or_str
}.

(** [Union[Question, QuestionGroup]]; a group is its own fields and its
    [items]. *)
Inductive Item : Type :=
| IQuestion (q : Question)
| IGroup (g : GroupHead) (items : list Item).

Record Survey : Type := {
  s_name : string;
  s_label : string;
  s_items : list Item
}.

(** ** pydantic: how a model is validated

    Fields are validated in the order of their declaration; a field that
    passes enters [values], one that fails records an error and stays out
    of [values].  A field that was left out enters [values] with its
    default as it is declared: a default is not validated.  Validators of a
    field are not called for a field that was left out or is [None].  The root validators (declared with [pre=False]
    and without [skip_on_failure]) then run on [values] whatever the fields
    did: a [ValueError] or [TypeError] they raise is recorded as one more
    error, any other exception leaves the call as it is.  The call raises
    [ValidationError] when an error was recorded. *)

Inductive fld (T : Type) : Type :=
| Absent          (* left out, or passed as None *)
| Given (v : T)   (* passed and accepted by the field's type *)
| Bad.            (* passed and rejected by the field's type *)

Arguments Absent {T}.
Arguments Given {T} v.
Arguments Bad {T}.

(** An entry of [values]: [None] when the key is not there. *)
Definition slot (T : Type) : Type := option T.

(** [values[key]] *)
Definition values_item {T : Type} (s : slot T) : result T :=
  match s with
  | Some v => Ok v
  | None => Raise KeyError
  end.

Definition required_slot {T : Type} (f : fld T) : slot T :=
  match f with
  | Given v => Some v
  | _ => None
  end.

Definition optional_slot {T : Type} (f : fld T) : slot (option T) :=
  match f with
  | Absent => Some None
  | Given v => Some (Some v)
  | Bad => None
  end.

Definition fld_of_option {T : Type} (o : option T) : fld T :=
  match o with
  | Some v => Given v
  | None => Absent
  end.

Definition present {T : Type} (s : slot T) : bool :=
  match s with Some _ => true | None => false end.

(** What pydantic does with the exception a validator raised. *)
Definition recorded (e : PyError) : bool :=
  match e with
  | ValueError | TypeError | ValidationError => true
  | _ => false
  end.

(** ** Logic *)

(** [Logic.validate_message]: "Set message to None unless type ==
    'constraint'". *)
Definition validate_message (v : string) (type_ : string) : option string :=
  if negb (String.eqb type_ "constraint") then None else Some v.

(** [Logic(type=..., expression=..., message=...)].  Any str is a type
    ([Union[LogicTypes, str]]); the validator of [message] runs only when a
    message was passed. *)
Definition Logic_init (type_ expression : string) (message : option string)
  : result Logic :=
  Ok {| l_type := type_;
        l_expression := expression;
        l_message := match message with
                     | Some v => validate_message v type_
                     | None => None
                     end |}.

(** ** Question *)

Record QFields : Type := {
  f_type : fld string;
  f_name : fld string;
  f_label : fld string;
  f_required : fld bool;
  f_default : fld string;
  f_hint : fld string;
  f_logics : fld (list Logic);
  f_calculation : fld string;
  f_range : fld Range;
  f_accuracyThreshold : fld string;
  f_choices : fld (list Choice);
  f_allow_other : fld bool;
  f_file : fld string;
  f_parameters : fld Dict;
  f_appearance_attributes : fld string
}.

Record QValues : Type := {
  v_type : slot string;
  v_name : slot string;
  v_label : slot string;
  v_required : slot (option bool);
  v_default : slot (option string);
  v_hint : slot (option string);
  v_logics : slot (option (list Logic));
  v_calculation : slot (option string);
  v_range : slot (option Range);
  v_accuracyThreshold : slot (option string);
  v_choices : slot (option (list Choice));
  v_allow_other : slot (option bool);
  v_file : slot (option string);
  v_parameters : slot (option Dict);
  v_appearance_attributes : slot (option string)
}.

(** [Question.validate_name] *)
Definition validate_name (v : string) : result string :=
  if str_in v RESERVED_NAMES then Raise ValueError else Ok v.

(** [Question.check_appearance_attributes]; [type_] is
    [values.get("type")]. *)
Definition check_appearance_attributes
    (appearance_attributes : string) (type_ : option string) : result string :=
  if negb (check_appearance_question_combo appearance_attributes type_)
  then Raise ValueError
  else Ok appearance_attributes.

(** The field of a validator: in [values] when the validator returns. *)
Definition validated {T : Type} (f : fld T) (validator : T -> result T) : slot T :=
  match f with
  | Given v => match validator v with Ok v' => Some v' | Raise _ => None end
  | _ => None
  end.

Definition validate_fields (f : QFields) : QValues :=
  let type_ := required_slot (f_type f) in
  {| v_type := type_;
     v_name := validated (f_name f) validate_name;
     v_label := required_slot (f_label f);
     v_required := optional_slot (f_required f);
     v_default := optional_slot (f_default f);
     v_hint := optional_slot (f_hint f);
     v_logics := optional_slot (f_logics f);
     v_calculation := optional_slot (f_calculation f);
     v_range := optional_slot (f_range f);
     v_accuracyThreshold := optional_slot (f_accuracyThreshold f);
     v_choices := optional_slot (f_choices f);
     v_allow_other := optional_slot (f_allow_other f);
     v_file := optional_slot (f_file f);
     v_parameters := optional_slot (f_parameters f);
     v_appearance_attributes :=
       match f_appearance_attributes f with
       | Absent => Some None
       | Given a =>
           match check_appearance_attributes a type_ with
           | Ok a' => Some (Some a')
           | Raise _ => None
           end
       | Bad => None
       end |}.

(** Every field is in [values]: no error was recorded. *)
Definition no_errors (v : QValues) : bool :=
  present (v_type v) && present (v_name v) && present (v_label v) &&
  present (v_required v) && present (v_default v) && present (v_hint v) &&
  present (v_logics v) && present (v_calculation v) && present (v_range v) &&
  present (v_accuracyThreshold v) && present (v_choices v) &&
  present (v_allow_other v) && present (v_file v) &&
  present (v_parameters v) && present (v_appearance_attributes v).

(** [check_associated] inside [validate_by_type]: "Check for None if
    required; set None if unnecessary."  Returns the entry of
    [associated_field] in [values] afterwards. *)
Definition check_associated {T : Type} (type_ : string) (q_type : list string)
    (associated_field : slot (option T)) (required : bool)
  : result (slot (option T)) :=
  if str_in type_ q_type then
    if required then
      v <- values_item associated_field ;;
      match v with
      | None => Raise ValueError
      | Some _ => Ok associated_field
      end
    else Ok associated_field
  else Ok (Some None).

Definition choice_types : list string := ["rank"; "select_one"; "select_multiple"].

(** [Question.validate_by_type] *)
Definition validate_by_type (values : QValues) : result QValues :=
  type_ <- values_item (v_type values) ;;
  if negb (hasattr QuestionTypes type_) then Raise ValueError else
  calculation <- check_associated type_ ["calculate"] (v_calculation values) true ;;
  choices <- check_associated type_ choice_types (v_choices values) true ;;
  allow_other <- check_associated type_ choice_types (v_allow_other values) false ;;
  accuracyThreshold <-
    check_associated type_ ["geopoint"; "geotrace"; "geoshape"]
                     (v_accuracyThreshold values) false ;;
  file <- check_associated type_ ["select_one_from_file"; "select_multiple_from_file"]
                           (v_file values) true ;;
  parameters <-
    (if String.eqb type_ "range" then
       range_params <- values_item (v_range values) ;;
       match range_params with
       | None => Raise ValueError
       | Some r =>
           parameters <- values_item (v_parameters values) ;;
           let parameters := match parameters with Some d => d | None => [] end in
           let parameters := dict_set parameters "start" (number_val (r_start r)) in
           let parameters := dict_set parameters "end" (number_val (r_end r)) in
           let parameters := dict_set parameters "step" (number_val (r_step r)) in
           Ok (Some (Some parameters))
       end
     else Ok (v_parameters values)) ;;
  Ok {| v_type := v_type values;
        v_name := v_name values;
        v_label := v_label values;
        v_required := v_required values;
        v_default := v_default values;
        v_hint := v_hint values;
        v_logics := v_logics values;
        v_calculation := calculation;
        v_range := v_range values;
        v_accuracyThreshold := accuracyThreshold;
        v_choices := choices;
        v_allow_other := allow_other;
        v_file := file;
        v_parameters := parameters;
        v_appearance_attributes := v_appearance_attributes values |}.

(** The object made of [values] once every field is there. *)
Definition Question_of_values (v : QValues) : option Question :=
  match v_type v, v_name v, v_label v, v_required v, v_default v, v_hint v,
        v_logics v, v_calculation v with
  | Some type_, Some name, Some label, Some required, Some default, Some hint,
    Some logics, Some calculation =>
      match v_range v, v_accuracyThreshold v, v_choices v, v_allow_other v,
            v_file v, v_parameters v, v_appearance_attributes v with
      | Some range, Some accuracyThreshold, Some choices, Some allow_other,
        Some file, Some parameters, Some appearance_attributes =>
          Some {| q_type := type_; q_name := name; q_label := label;
                  q_required := required; q_default := default; q_hint := hint;
                  q_logics := logics; q_calculation := calculation;
                  q_range := range; q_accuracyThreshold := accuracyThreshold;
                  q_choices := choices; q_allow_other := allow_other;
                  q_file := file; q_parameters := parameters;
                  q_appearance_attributes := appearance_attributes |}
      | _, _, _, _, _, _, _ => None
      end
  | _, _, _, _, _, _, _, _ => None
  end.

(** Validation of a Question from the state of its fields. *)
Definition Question_validate (f : QFields) : result Question :=
  let values := validate_fields f in
  match validate_by_type values with
  | Raise e => if recorded e then Raise ValidationError else Raise e
  | Ok values' =>
      if no_errors values then
        match Question_of_values values' with
        | Some q => Ok q
        | None => Raise ValidationError
        end
      else Raise ValidationError
  end.

(** The fields of a call [Question(type=..., name=..., ...)].  The
    appearance attribute must be the value of a member of
    [AppearanceAttributes]. *)
Definition fields_of_args (a : Question) : QFields :=
  {| f_type := Given (q_type a);
     f_name := Given (q_name a);
     f_label := Given (q_label a);
     f_required := fld_of_option (q_required a);
     f_default := fld_of_option (q_default a);
     f_hint := fld_of_option (q_hint a);
     f_logics := fld_of_option (q_logics a);
     f_calculation := fld_of_option (q_calculation a);
     f_range := fld_of_option (q_range a);
     f_accuracyThreshold := fld_of_option (q_accuracyThreshold a);
     f_choices := fld_of_option (q_choices a);
     f_allow_other := fld_of_option (q_allow_other a);
     f_file := fld_of_option (q_file a);
     f_parameters := fld_of_option (q_parameters a);
     f_appearance_attributes :=
       match q_appearance_attributes a with
       | None => Absent
       | Some s => if str_in s (member_values AppearanceAttributes) then Given s else Bad
       end |}.

(** The call [Question(...)] with the keyword arguments [a]. *)
Definition Question_init (a : Question) : result Question :=
  Question_validate (fields_of_args a).

(** ** QuestionGroup and Survey *)

(** The keyword arguments of [QuestionGroup(...)]: [ga_type] is [None]
    when the call leaves [type] to its default, [ga_label] is [None] when
    the label is left out or passed as [None]. *)
Record QuestionGroupArgs : Type := {
  ga_type : option string;
  ga_name : string;
  ga_label : option string;
  ga_items : list Item;
  ga_logics : option (list Logic);
  ga_repeat_count : option int_or_str
}.

(** [hasattr(GroupTypes, group_type)]: Python raises [TypeError] for an
    attribute name that is not a str, which an Enum member is not. *)
Definition hasattr_GroupTypes (group_type : GType) : result bool :=
  match group_type with
  | GStr s => Ok (hasattr GroupTypes s)
  | GMember _ => Raise TypeError
  end.

(** [group_type == "repeat"]: a member of the plain Enum [GroupTypes] is
    not equal to a str. *)
Definition is_repeat (group_type : GType) : bool :=
  match group_type with
  | GStr s => String.eqb s "repeat"
  | GMember _ => false
  end.

(** [QuestionGroup.validate_repeat], returning [values["type"]]. *)
Definition validate_repeat (group_type : GType) (repeat_count : option int_or_str)
  : result GType :=
  known <- hasattr_GroupTypes group_type ;;
  if negb known then Raise ValueError else
  if is_repeat group_type then
    match repeat_count with
    | None => Raise ValueError
    | Some _ => Ok group_type
    end
  else
    match repeat_count with
    | Some _ => Ok (GMember "repeat")
    | None => Ok group_type
    end.

(** The fields [Question] finds in [dict(group)] when pydantic tries the
    first member of [Union[Question, QuestionGroup]] on a group: type,
    name, label and logics ([items] and [repeat_count] are not fields of a
    Question).  An Enum member of [GroupTypes] is neither a question type
    nor a str. *)
Definition fields_of_group (g : GroupHead) : QFields :=
  {| f_type := match g_type g with GStr s => Given s | GMember _ => Bad end;
     f_name := Given (g_name g);
     f_label := Given (g_label g);
     f_required := Absent; f_default := Absent; f_hint := Absent;
     f_logics := fld_of_option (g_logics g);
     f_calculation := Absent; f_range := Absent; f_accuracyThreshold := Absent;
     f_choices := Absent; f_allow_other := Absent; f_file := Absent;
     f_parameters := Absent; f_appearance_attributes := Absent |}.

(** An element of an [items] list that is already a model object, through
    [Union[Question, QuestionGroup]]: a Question is taken as it is; for a
    group [Question] is tried first, and the group is taken as it is when
    that fails with a validation error. *)
Definition union_validate (it : Item) : result Item :=
  match it with
  | IQuestion _ => Ok it
  | IGroup g _ =>
      match Question_validate (fields_of_group g) with
      | Ok q => Ok (IQuestion q)
      | Raise ValidationError => Ok it
      | Raise e => Raise e
      end
  end.

(** The call [QuestionGroup(...)] with the keyword arguments [a]. *)
Definition QuestionGroup_init (a : QuestionGroupArgs) : result Item :=
  items <- mapM union_validate (ga_items a) ;;
  let type_ := match ga_type a with
               | Some s => GStr s
               | None => GMember "group"       (* Field(GroupTypes.group, ...) *)
               end in
  match validate_repeat type_ (ga_repeat_count a) with
  | Raise e => if recorded e then Raise ValidationError else Raise e
  | Ok type' =>
      match ga_label a with
      | None => Raise ValidationError
      | Some label =>
          Ok (IGroup {| g_type := type'; g_name := ga_name a; g_label := label;
                        g_logics := ga_logics a;
                        g_repeat_count := ga_repeat_count a |} items)
      end
  end.

(** The call [Survey(name=..., label=..., items=...)]. *)
Definition Survey_init (name label : string) (items : list Item) : result Survey :=
  items' <- mapM union_validate items ;;
  Ok {| s_name := name; s_label := label; s_items := items' |}.

(** A tree whose every node came out of its constructor. *)
Inductive built : Item -> Prop :=
| built_question (a q : Question) :
    Question_init a = Ok q -> built (IQuestion q)
| built_group (a : QuestionGroupArgs) (g : GroupHead) (items : list Item) :
    Forall built (ga_items a) ->
    QuestionGroup_init a = Ok (IGroup g items) -> built (IGroup g items).

Definition built_survey (s : Survey) : Prop :=
  exists items, Forall built items /\ Survey_init (s_name s) (s_label s) items = Ok s.

(** ** [.dict()] *)

Definition opt {T : Type} (f : T -> PyVal) (o : option T) : PyVal :=
  match o with
  | Some v => f v
  | None => PNone
  end.

Definition Logic_dict (l : Logic) : PyVal :=
  PDict [("type", PStr (l_type l)); ("expression", PStr (l_expression l));
         ("message", opt PStr (l_message l))].

Definition Choice_dict (c : Choice) : PyVal :=
  PDict [("value", PStr (c_value c)); ("label", PStr (c_label c))].

Definition Range_dict (r : Range) : PyVal :=
  PDict [("start", number_val (r_start r)); ("end", number_val (r_end r));
         ("step", number_val (r_step r))].

Definition Question_dict (q : Question) : Dict :=
  [("type", PStr (q_type q)); ("name", PStr (q_name q)); ("label", PStr (q_label q));
   ("required", opt PBool (q_required q)); ("default", opt PStr (q_default q));
   ("hint", opt PStr (q_hint q));
   ("logics", opt (fun l => PList (map Logic_dict l)) (q_logics q));
   ("calculation", opt PStr (q_calculation q));
   ("range", opt Range_dict (q_range q));
   ("accuracyThreshold", opt PFloat (q_accuracyThreshold q));
   ("choices", opt (fun l => PList (map Choice_dict l)) (q_choices q));
   ("allow_other", opt PBool (q_allow_other q)); ("file", opt PStr (q_file q));
   ("parameters", opt PDict (q_parameters q));
   ("appearance_attributes", opt PStr (q_appearance_attributes q))].

Definition GType_val (t : GType) : PyVal :=
  match t with
  | GStr s => PStr s
  | GMember m => PEnum "GroupTypes" m m
  end.

Definition int_or_str_val (v : int_or_str) : PyVal :=
  match v with
  | inl z => PInt z
  | inr s => PStr s
  end.

(** [item.dict()] *)
Fixpoint Item_dict (item : Item) : Dict :=
  match item with
  | IQuestion q => Question_dict q
  | IGroup g items =>
      [("type", GType_val (g_type g)); ("name", PStr (g_name g));
       ("label", PStr (g_label g));
       ("items", PList (map (fun i => PDict (Item_dict i)) items));
       ("logics", opt (fun l => PList (map Logic_dict l)) (g_logics g));
       ("repeat_count", opt int_or_str_val (g_repeat_count g))]
  end.

(** [item.name] *)
Definition Item_name (item : Item) : string :=
  match item with
  | IQuestion q => q_name q
  | IGroup g _ => g_name g
  end.

(** [item.items] *)
Definition Item_items (item : Item) : result (list Item) :=
  match item with
  | IQuestion _ => Raise AttributeError
  | IGroup _ items => Ok items
  end.

(** [item.choices] *)
Definition Item_choices (item : Item) : result (option (list Choice)) :=
  match item with
  | IQuestion q => Ok (q_choices q)
  | IGroup _ _ => Raise AttributeError
  end.

(** ** pandas: DataFrames

    A frame is its column labels and its rows, each row a dict over
    exactly those labels ([to_dict("records")]). *)

Record DataFrame : Type := {
  columns : list string;
  rows : list Dict
}.

(** [pd.isna(v)] *)
Definition isna (v : PyVal) : bool :=
  match v with
  | PNone => true
  | PFloat r => String.eqb r "nan"
  | _ => false
  end.

(** The cell of a row under a label; a label the row lacks reads NaN. *)
Definition cell (r : Dict) (c : string) : PyVal :=
  match dict_get r c with
  | Some v => v
  | None => NaN
  end.

(** The keys of the dicts, each at its first appearance. *)
Fixpoint first_seen (seen : list string) (keys : list string) : list string :=
  match keys with
  | [] => seen
  | k :: r => if str_in k seen then first_seen seen r else first_seen (seen ++ [k])%list r
  end.

Definition is_number (v : PyVal) : bool :=
  match v with
  | PInt _ | PFloat _ => true
  | _ => false
  end.

(** A column pandas stores as float64: every value is an int, a float or
    missing, one at least is a number, and one at least is a float or
    missing.  (An int too large for int64 keeps the column as objects; not
    modelled.) *)
Definition float_column (cells : list PyVal) : bool :=
  forallb (fun v => isna v || is_number v) cells &&
  existsb (fun v => is_number v && negb (isna v)) cells &&
  existsb (fun v => match v with PInt _ => false | _ => true end) cells.

Definition to_float (v : PyVal) : PyVal :=
  match v with
  | PInt z => float_of_Z z
  | PNone => NaN
  | _ => v
  end.

(** [pd.DataFrame(data)] for a list of dicts *)
Definition DataFrame_of (data : list Dict) : DataFrame :=
  let cols := first_seen [] (List.concat (map (map fst) data)) in
  let conv := fun c => float_column (map (fun r => cell r c) data) in
  {| columns := cols;
     rows := map (fun r => map (fun c => (c, if conv c then to_float (cell r c) else cell r c)) cols) data |}.

(** [df.to_dict("records")] *)
Definition to_dict_records (df : DataFrame) : list Dict := rows df.

Definition map_cells (f : PyVal -> PyVal) (df : DataFrame) : DataFrame :=
  {| columns := columns df;
     rows := map (map (fun kv => (fst kv, f (snd kv)))) (rows df) |}.

(** [df.fillna(value)] *)
Definition fillna (value : PyVal) (df : DataFrame) : DataFrame :=
  map_cells (fun v => if isna v then value else v) df.

(** [df.astype(str)] *)
Definition astype_str (df : DataFrame) : DataFrame :=
  map_cells (fun v => PStr (py_str v)) df.

(** [df.replace(to_replace, regex=False)] for a dict: a cell equal to a
    key becomes the key's value. *)
Fixpoint replace_cell (to_replace : list (PyVal * PyVal)) (v : PyVal) : PyVal :=
  match to_replace with
  | [] => v
  | (k, w) :: r => if py_eqb v k then w else replace_cell r v
  end.

Definition replace (to_replace : list (PyVal * PyVal)) (df : DataFrame) : DataFrame :=
  map_cells (replace_cell to_replace) df.

Definition keep_columns (keep : list string) (df : DataFrame) : DataFrame :=
  {| columns := filter (fun c => str_in c keep) (columns df);
     rows := map (filter (fun kv => str_in (fst kv) keep)) (rows df) |}.

(** [df.dropna(axis=1, how="all")] *)
Definition dropna_columns (df : DataFrame) : DataFrame :=
  keep_columns
    (filter (fun c => existsb (fun r => negb (isna (cell r c))) (rows df)) (columns df))
    df.

(** [df.dropna(axis=0, how="all")] *)
Definition dropna_rows (df : DataFrame) : DataFrame :=
  {| columns := columns df;
     rows := filter (fun r => existsb (fun kv => negb (isna (snd kv))) r) (rows df) |}.

(** ** Tree to tables: [items_to_dfs]

    The function fills two Python lists.  [survey_rows] holds references to
    dict objects, so the objects live in a [store] and the list holds their
    addresses: a dict appended twice is one object seen twice, and a later
    [update] of it shows at both places when the frame is built. *)

Record Lists : Type := {
  store : list Dict;
  survey_rows : list nat;
  choices_rows : list Dict
}.

Definition no_rows : Lists := {| store := []; survey_rows := []; choices_rows := [] |}.

Definition deref (st : Lists) (a : nat) : Dict := nth a (store st) [].

(** A new dict object; its address is the next free one. *)
Definition alloc (st : Lists) (d : Dict) : nat * Lists :=
  (List.length (store st),
   {| store := (store st ++ [d])%list;
      survey_rows := survey_rows st;
      choices_rows := choices_rows st |}).

Fixpoint list_set {A : Type} (l : list A) (n : nat) (x : A) : list A :=
  match l, n with
  | [], _ => []
  | _ :: r, O => x :: r
  | y :: r, S n' => y :: list_set r n' x
  end.

(** [d.update({"type": v})] on the object at address [a] *)
Definition update_type (st : Lists) (a : nat) (v : string) : Lists :=
  {| store := list_set (store st) a (dict_set (deref st a) "type" (PStr v));
     survey_rows := survey_rows st;
     choices_rows := choices_rows st |}.

(** [survey_rows.append(d)] for the object at address [a] *)
Definition append_survey (st : Lists) (a : nat) : Lists :=
  {| store := store st;
     survey_rows := (survey_rows st ++ [a])%list;
     choices_rows := choices_rows st |}.

(** [survey_rows += records] for dicts made by [to_dict("records")] *)
Definition extend_survey (st : Lists) (records : list Dict) : Lists :=
  fold_left (fun st d => let (a, st') := alloc st d in append_survey st' a) records st.

(** [choices_rows += records] *)
Definition extend_choices (st : Lists) (records : list Dict) : Lists :=
  {| store := store st;
     survey_rows := survey_rows st;
     choices_rows := (choices_rows st ++ records)%list |}.

Record Dfs : Type := {
  survey : DataFrame;
  choices : DataFrame
}.

(** The two frames built from the lists when the loop is over. *)
Definition frames (st : Lists) : Dfs :=
  {| survey := DataFrame_of (map (deref st) (survey_rows st));
     choices := DataFrame_of (choices_rows st) |}.

Fixpoint loopM {A S : Type} (f : A -> S -> result S) (l : list A) (s : S) : result S :=
  match l with
  | [] => Ok s
  | x :: r => s' <- f x s ;; loopM f r s'
  end.

(** [v in (s1, s2, ...)] for a tuple of strs *)
Definition py_in (v : PyVal) (l : list string) : bool :=
  existsb (fun s => py_eqb v (PStr s)) l.

(** One turn of the loop of [items_to_dfs]. *)
Fixpoint items_to_dfs_item (item : Item) (st : Lists) {struct item} : result Lists :=
  let item_dict := Item_dict item in
  type_ <- dict_item item_dict "type" ;;
  if py_in type_ ["repeat"; "group"] then
    item_dict <- dict_del item_dict "items" ;;
    let (a, st) := alloc st item_dict in
    let st := update_type st a ("begin " ++ py_str type_) in
    let st := append_survey st a in
    _dfs <- match item with
            | IQuestion _ => Raise AttributeError          (* item.items *)
            | IGroup _ items =>
                inner <- loopM items_to_dfs_item items no_rows ;;
                Ok (frames inner)
            end ;;
    let st := extend_survey st (to_dict_records (survey _dfs)) in
    let st := extend_choices st (to_dict_records (choices _dfs)) in
    let st := update_type st a ("end " ++ py_str type_) in
    Ok (append_survey st a)
  else if py_in type_ choice_types then
    let list_name := Item_name item in
    item_dict <- dict_del item_dict "choices" ;;
    let (a, st) := alloc st item_dict in
    let st := update_type st a (py_str type_ ++ " " ++ list_name) in
    let st := append_survey st a in
    item_choices <- Item_choices item ;;
    match item_choices with
    | Some l =>
        Ok (extend_choices st
              (map (fun choice => [("list_name", PStr list_name);
                                   ("name", PStr (c_value choice));
                                   ("label", PStr (c_label choice))]) l))
    | None => Ok st
    end
  else
    let (a, st) := alloc st item_dict in
    Ok (append_survey st a).

(** [items_to_dfs(items)] for a list ([items] is never [None] here). *)
Definition items_to_dfs (items : list Item) : result Dfs :=
  st <- loopM items_to_dfs_item items no_rows ;;
  Ok (frames st).

(** [prep_for_excel(df)] *)
Definition prep_for_excel (df : DataFrame) : DataFrame :=
  dropna_columns
    (replace [(PStr "", PNone); (PBool true, PStr "yes"); (PBool false, PStr "no")]
       (replace [(PStr "[]", PStr ""); (PStr "{}", PStr "")]
          (astype_str (fillna (PStr "") df)))).

(** The three sheets of a workbook. *)
Record Sheets : Type := {
  sh_survey : DataFrame;
  sh_choices : DataFrame;
  sh_settings : DataFrame
}.

(** [Survey.get_dfs] *)
Definition get_dfs (s : Survey) : result Sheets :=
  let settings_df :=
    DataFrame_of [[("form_id", PStr (s_name s)); ("form_title", PStr (s_label s))]] in
  df_dict <- items_to_dfs (s_items s) ;;
  Ok {| sh_survey := prep_for_excel (survey df_dict);
        sh_choices := prep_for_excel (choices df_dict);
        sh_settings := prep_for_excel settings_df |}.

(** The workbook writer and reader are pandas' own.  The reader is taken to
    give back a text cell as the same text and an empty cell as NaN; a
    frame without columns leaves an empty sheet.  (pandas may also read a
    column of numerals as numbers; no statement below has such a cell.) *)
Definition read_excel (df : DataFrame) : DataFrame :=
  match columns df with
  | [] => {| columns := []; rows := [] |}
  | _ => map_cells (fun v => if isna v then NaN else v) df
  end.

(** [Survey.save_to_excel] followed by the three [pd.read_excel]. *)
Definition read_workbook (sh : Sheets) : Sheets :=
  {| sh_survey := read_excel (sh_survey sh);
     sh_choices := read_excel (sh_choices sh);
     sh_settings := read_excel (sh_settings sh) |}.

(** ** pydantic: coercion of a value to the type of a field *)

(** [str]: a str as it is, a number through [str()]. *)
Definition coerce_str (v : PyVal) : option string :=
  match v with
  | PStr s => Some s
  | PInt _ | PFloat _ | PBool _ => Some (py_str v)
  | _ => None
  end.

(** [Union[QuestionTypes, str]] with [use_enum_values]: a member of
    [QuestionTypes] gives its value, a str stays as it is. *)
Definition coerce_type (v : PyVal) : option string :=
  match v with
  | PEnum cls _ val => if String.eqb cls "QuestionTypes" then Some val else None
  | _ => coerce_str v
  end.

(** [bool] *)
Definition coerce_bool (v : PyVal) : option bool :=
  match v with
  | PBool b => Some b
  | PStr s =>
      if str_in (lower s) ["1"; "on"; "t"; "true"; "y"; "yes"] then Some true
      else if str_in (lower s) ["0"; "off"; "f"; "false"; "n"; "no"] then Some false
      else None
  | PInt _ | PFloat _ =>
      if py_eqb v (PInt 1) then Some true
      else if py_eqb v (PInt 0) then Some false
      else None
  | _ => None
  end.

Definition is_digit (c : ascii) : bool :=
  let n := nat_of_ascii c in ((48 <=? n)%nat && (n <=? 57)%nat).

Fixpoint all_digits (s : string) : bool :=
  match s with
  | EmptyString => true
  | String c r => is_digit c && all_digits r
  end.

Definition digits (s : string) : bool :=
  negb (String.eqb s "") && all_digits s.

Definition unsigned (s : string) : string :=
  match s with
  | String c r => if Ascii.eqb c "-" || Ascii.eqb c "+" then r else s
  | EmptyString => s
  end.

(** Until the first of the characters [c], and after it. *)
Fixpoint cut (c : ascii) (s : string) : string * option string :=
  match s with
  | EmptyString => (EmptyString, None)
  | String d r =>
      if Ascii.eqb c d then (EmptyString, Some r)
      else let (a, b) := cut c r in (String d a, b)
  end.

(** A decimal literal: digits with an optional point, one side of which
    may be empty. *)
Definition decimal (s : string) : bool :=
  match cut "." s with
  | (a, None) => digits a
  | (a, Some b) => (digits a && (String.eqb b "" || digits b)) ||
                   (String.eqb a "" && digits b)
  end.

(** The texts [float(s)] reads. *)
Definition float_literal (s : string) : bool :=
  let s := unsigned (lower s) in
  str_in s ["inf"; "infinity"; "nan"] ||
  match cut "e" s with
  | (m, None) => decimal m
  | (m, Some e) => decimal m && digits (unsigned e)
  end.

(** [float]: the float is carried by its text, which for a str is the
    text as written (the texts of one float are not identified). *)
Definition coerce_float (v : PyVal) : option string :=
  match v with
  | PFloat r => Some r
  | PInt z => Some (str_of_Z z ++ ".0")
  | PBool b => Some (if b then "1.0" else "0.0")
  | PStr s => if float_literal s then Some s else None
  | _ => None
  end.

Definition coerce_appearance (v : PyVal) : option string :=
  match v with
  | PStr s => if str_in s (member_values AppearanceAttributes) then Some s else None
  | PEnum cls _ val => if String.eqb cls "AppearanceAttributes" then Some val else None
  | _ => None
  end.

(** The state of a field read from a dict. *)
Definition field_of {T : Type} (coerce : PyVal -> option T) (obj : Dict) (k : string)
  : fld T :=
  match dict_get obj k with
  | None | Some PNone => Absent
  | Some v =>
      match coerce v with
      | Some x => Given x
      | None => Bad
      end
  end.

(** [Choice.parse_obj(d)] *)
Definition Choice_parse_obj (d : Dict) : result Choice :=
  match field_of coerce_str d "value", field_of coerce_str d "label" with
  | Given v, Given l => Ok {| c_value := v; c_label := l |}
  | _, _ => Raise ValidationError
  end.

(** [List[Choice]] from a list of Choice objects, each given by its
    [dict()]. *)
Definition coerce_choices (v : PyVal) : option (list Choice) :=
  match v with
  | PList l =>
      match mapM (fun x => match x with
                           | PDict d => Choice_parse_obj d
                           | _ => Raise ValidationError
                           end) l with
      | Ok cs => Some cs
      | Raise _ => None
      end
  | _ => None
  end.

(** A field whose type is a list of models or a dict ([logics], [range],
    [parameters]), read from the cell of a sheet: a cell holds text, a
    number or a boolean, none of which is a list or a dict. *)
Definition coerce_container {T : Type} (v : PyVal) : option T := None.

(** The fields of [Question.parse_obj(row)] for a row of the survey sheet;
    keys that are not fields are ignored. *)
Definition fields_of_row (row : Dict) : QFields :=
  {| f_type := field_of coerce_type row "type";
     f_name := field_of coerce_str row "name";
     f_label := field_of coerce_str row "label";
     f_required := field_of coerce_bool row "required";
     f_default := field_of coerce_str row "default";
     f_hint := field_of coerce_str row "hint";
     f_logics := field_of coerce_container row "logics";
     f_calculation := field_of coerce_str row "calculation";
     f_range := field_of coerce_container row "range";
     f_accuracyThreshold := field_of coerce_float row "accuracyThreshold";
     f_choices := field_of coerce_choices row "choices";
     f_allow_other := field_of coerce_bool row "allow_other";
     f_file := field_of coerce_str row "file";
     f_parameters := field_of coerce_container row "parameters";
     f_appearance_attributes := field_of coerce_appearance row "appearance_attributes" |}.

(** [Question.parse_obj(row)] *)
Definition Question_parse_obj (row : Dict) : result Question :=
  Question_validate (fields_of_row row).

(** ** Tables to tree: [get_survey_args] *)

(** [isinstance(v, float) and pd.isna(v)] *)
Definition is_nan (v : PyVal) : bool :=
  match v with
  | PFloat r => String.eqb r "nan"
  | _ => false
  end.

(** [drop_nan_dict(df)] *)
Definition drop_nan_dict (df : DataFrame) : list Dict :=
  map (filter (fun kv => negb (is_nan (snd kv))))
      (to_dict_records (dropna_columns (dropna_rows df))).

(** [df.rename(columns={old: new})] *)
Definition rename (old new : string) (df : DataFrame) : DataFrame :=
  let f := fun c => if String.eqb c old then new else c in
  {| columns := map f (columns df);
     rows := map (map (fun kv => (f (fst kv), snd kv))) (rows df) |}.

(** [df.drop(columns=[c])] *)
Definition drop_column (c : string) (df : DataFrame) : result DataFrame :=
  if str_in c (columns df)
  then Ok (keep_columns (filter (fun c' => negb (String.eqb c c')) (columns df)) df)
  else Raise KeyError.

Fixpoint distinct (seen : list PyVal) (l : list PyVal) : list PyVal :=
  match l with
  | [] => seen
  | v :: r =>
      if existsb (py_eqb v) seen then distinct seen r
      else distinct (seen ++ [v])%list r
  end.

(** [df.groupby(by, as_index=False)], iterated: the keys with the rows of
    each, rows without a key left out.  pandas yields the groups sorted by
    key; here they come in the order of first appearance, the dict built
    from them being only read by key. *)
Definition groupby (by_ : string) (df : DataFrame) : result (list (PyVal * DataFrame)) :=
  if str_in by_ (columns df) then
    let keys := distinct [] (filter (fun v => negb (isna v))
                                    (map (fun r => cell r by_) (rows df))) in
    Ok (map (fun k => (k, {| columns := columns df;
                             rows := filter (fun r => py_eqb (cell r by_) k) (rows df) |}))
            keys)
  else Raise KeyError.

(** [Dict[str, List[Choice]]] *)
Definition ChoiceDict : Type := list (PyVal * list Choice).

(** [get_choice_dict(choices_df)] *)
Definition get_choice_dict (choices_df : DataFrame) : result ChoiceDict :=
  groups <- groupby "list_name" (rename "name" "value" choices_df) ;;
  mapM (fun g =>
          df <- drop_column "list_name" (snd g) ;;
          cs <- mapM Choice_parse_obj (drop_nan_dict df) ;;
          Ok (fst g, cs))
       groups.

(** [choice_dict.get(group_name, [])] *)
Fixpoint choice_dict_get (choice_dict : ChoiceDict) (group_name : string) : list Choice :=
  match choice_dict with
  | [] => []
  | (k, cs) :: r =>
      if py_eqb k (PStr group_name) then cs else choice_dict_get r group_name
  end.

(** The str a method of [str] is called on; any other value has no such
    method. *)
Definition as_str (v : PyVal) : result string :=
  match v with
  | PStr s => Ok s
  | _ => Raise AttributeError
  end.

(** [link_choices(survey_row, choice_dict)] *)
Definition link_choices (survey_row : Dict) (choice_dict : ChoiceDict) : result Dict :=
  type_ <- dict_item survey_row "type" ;;
  type_ <- as_str type_ ;;
  let type_with_choices := existsb (startswith type_) choice_types in
  let not_from_file := negb (contains type_ "from_file") in
  if type_with_choices && not_from_file then
    match split type_ with
    | [type_root; group_name] =>
        let survey_row := dict_set survey_row "type" (PStr type_root) in
        Ok (dict_set survey_row "choices"
              (PList (map Choice_dict (choice_dict_get choice_dict group_name))))
    | _ => Raise ValueError          (* type_root, group_name = type.split() *)
    end
  else Ok survey_row.

(** The state of the loop of [group_items]: the list [groups], and
    [current_group], which is [None] or one of the objects in [groups],
    given by its position. *)
Record Grouping : Type := {
  groups : list Item;
  current_group : option nat
}.

(** [group.items.append(q)] *)
Definition items_append (it : Item) (q : Item) : Item :=
  match it with
  | IGroup g items => IGroup g (items ++ [q])%list
  | IQuestion _ => it
  end.

(** One turn of the loop of [group_items]. *)
Definition group_items_row (row : Dict) (st : Grouping) : result Grouping :=
  type_ <- dict_item row "type" ;;
  type_ <- as_str type_ ;;
  if startswith type_ "begin" then
    let group_type := str_from 6 type_ in
    group_name <- dict_item row "name" ;;
    match coerce_str group_name with
    | None => Raise ValidationError
    | Some name =>
        new_group <- QuestionGroup_init
                       {| ga_type := Some group_type;
                          ga_name := name;
                          ga_label := match field_of coerce_str row "label" with
                                      | Given l => Some l
                                      | _ => None
                                      end;
                          ga_items := [];
                          ga_logics := None;
                          ga_repeat_count := None |} ;;
        Ok {| groups := (groups st ++ [new_group])%list;
              current_group := Some (List.length (groups st)) |}
    end
  else if startswith type_ "end" && present (current_group st) then
    Ok {| groups := groups st; current_group := None |}
  else
    q <- Question_parse_obj row ;;
    match current_group st with
    | Some i =>
        Ok {| groups := list_set (groups st) i
                          (items_append (nth i (groups st) (IQuestion q)) (IQuestion q));
              current_group := Some i |}
    | None =>
        Ok {| groups := (groups st ++ [IQuestion q])%list; current_group := None |}
    end.

(** [group_items(rows)] *)
Definition group_items (rows : list Dict) : result (list Item) :=
  st <- loopM group_items_row rows {| groups := []; current_group := None |} ;;
  Ok (groups st).

(** The dict [get_survey_args] returns, by its three entries read later. *)
Record SurveyArgs : Type := {
  a_name : PyVal;
  a_label : PyVal;
  a_items : list Item
}.

(** [get_survey_args], from the three frames read from the workbook.  The
    rows go one by one through [link_choices] and then the loop of
    [group_items] (a generator feeds the loop). *)
Definition get_survey_args (sh : Sheets) : result SurveyArgs :=
  choice_dict <- get_choice_dict (sh_choices sh) ;;
  st <- loopM (fun d st => row <- link_choices d choice_dict ;; group_items_row row st)
              (drop_nan_dict (sh_survey sh))
              {| groups := []; current_group := None |} ;;
  match to_dict_records (sh_settings sh) with
  | [] => Raise IndexError                       (* settings_df.iloc[0] *)
  | settings_dict :: _ =>
      name <- dict_item settings_dict "form_id" ;;
      label <- dict_item settings_dict "form_title" ;;
      Ok {| a_name := name; a_label := label; a_items := groups st |}
  end.

(** [Survey.parse_obj(survey_args)] *)
Definition Survey_parse_obj (a : SurveyArgs) : result Survey :=
  match coerce_str (a_name a), coerce_str (a_label a) with
  | Some name, Some label => Survey_init name label (a_items a)
  | _, _ =>
      _ <- mapM union_validate (a_items a) ;;
      Raise ValidationError
  end.

(** [Survey.parse_excel] on the workbook [Survey.save_to_excel] wrote. *)
Definition parse_excel (sh : Sheets) : result Survey :=
  survey_args <- get_survey_args sh ;;
  Survey_parse_obj survey_args.

(** Saving a survey and parsing the file again. *)
Definition save_and_parse (s : Survey) : result Survey :=
  sh <- get_dfs s ;;
  parse_excel (read_workbook sh).

(** ** Values used in the statements *)

(** [Question(type=..., name=..., label=...)], every other argument left
    out. *)
Definition question (type_ name label : string) : Question :=
  {| q_type := type_; q_name := name; q_label := label;
     q_required := None; q_default := None; q_hint := None; q_logics := None;
     q_calculation := None; q_range := None; q_accuracyThreshold := None;
     q_choices := None; q_allow_other := None; q_file := None;
     q_parameters := None; q_appearance_attributes := None |}.

Definition with_appearance (a : Question) (x : option string) : Question :=
  {| q_type := q_type a; q_name := q_name a; q_label := q_label a;
     q_required := q_required a; q_default := q_default a; q_hint := q_hint a;
     q_logics := q_logics a; q_calculation := q_calculation a;
     q_range := q_range a; q_accuracyThreshold := q_accuracyThreshold a;
     q_choices := q_choices a; q_allow_other := q_allow_other a;
     q_file := q_file a; q_parameters := q_parameters a;
     q_appearance_attributes := x |}.

Definition with_calculation (a : Question) (x : option string) : Question :=
  {| q_type := q_type a; q_name := q_name a; q_label := q_label a;
     q_required := q_required a; q_default := q_default a; q_hint := q_hint a;
     q_logics := q_logics a; q_calculation := x;
     q_range := q_range a; q_accuracyThreshold := q_accuracyThreshold a;
     q_choices := q_choices a; q_allow_other := q_allow_other a;
     q_file := q_file a; q_parameters := q_parameters a;
     q_appearance_attributes := q_appearance_attributes a |}.

Definition with_required (a : Question) (x : option bool) : Question :=
  {| q_type := q_type a; q_name := q_name a; q_label := q_label a;
     q_required := x; q_default := q_default a; q_hint := q_hint a;
     q_logics := q_logics a; q_calculation := q_calculation a;
     q_range := q_range a; q_accuracyThreshold := q_accuracyThreshold a;
     q_choices := q_choices a; q_allow_other := q_allow_other a;
     q_file := q_file a; q_parameters := q_parameters a;
     q_appearance_attributes := q_appearance_attributes a |}.

Definition set_v_appearance (v : QValues) (x : slot (option string)) : QValues :=
  {| v_type := v_type v; v_name := v_name v; v_label := v_label v;
     v_required := v_required v; v_default := v_default v; v_hint := v_hint v;
     v_logics := v_logics v; v_calculation := v_calculation v;
     v_range := v_range v; v_accuracyThreshold := v_accuracyThreshold v;
     v_choices := v_choices v; v_allow_other := v_allow_other v;
     v_file := v_file v; v_parameters := v_parameters v;
     v_appearance_attributes := x |}.

Definition red : Choice := {| c_value := "r"; c_label := "Red" |}.
Definition blue : Choice := {| c_value := "b"; c_label := "Blue" |}.

(** [Question(type="select_one", name="color", label="Color",
    choices=[Choice(value="r", label="Red"), Choice(value="b",
    label="Blue")])] *)
Definition color_question : Question :=
  {| q_type := "select_one"; q_name := "color"; q_label := "Color";
     q_required := None; q_default := None; q_hint := None; q_logics := None;
     q_calculation := None; q_range := None; q_accuracyThreshold := None;
     q_choices := Some [red; blue]; q_allow_other := None; q_file := None;
     q_parameters := None; q_appearance_attributes := None |}.

Definition color_survey : Survey :=
  {| s_name := "s"; s_label := "S"; s_items := [IQuestion color_question] |}.

Definition color_choices_rows : list Dict :=
  [ [("list_name", PStr "color"); ("name", PStr "r"); ("label", PStr "Red")];
    [("list_name", PStr "color"); ("name", PStr "b"); ("label", PStr "Blue")] ].

Definition color_choices_df : DataFrame :=
  {| columns := ["list_name"; "name"; "label"]; rows := color_choices_rows |}.

(** A question that has every type-dependent argument, so that it is built
    whatever its type. *)
Definition full_question (type_ : string) (appearance : option string) : Question :=
  {| q_type := type_; q_name := "q"; q_label := "L";
     q_required := None; q_default := None; q_hint := None; q_logics := None;
     q_calculation := Some "1"; 
     q_range := Some {| r_start := NInt 0; r_end := NInt 10; r_step := NInt 1 |};
     q_accuracyThreshold := None;
     q_choices := Some [red; blue]; q_allow_other := None; q_file := Some "f.csv";
     q_parameters := None; q_appearance_attributes := appearance |}.

(** [QuestionGroup(name=..., label=..., items=..., repeat_count=...)],
    with the type passed or left to its default. *)
Definition group_args (type_ : option string) (name label : string)
    (items : list Item) (repeat_count : option int_or_str) : QuestionGroupArgs :=
  {| ga_type := type_; ga_name := name; ga_label := Some label;
     ga_items := items; ga_logics := None; ga_repeat_count := repeat_count |}.

Definition group_head (type_ : GType) (name label : string)
    (repeat_count : option int_or_str) : GroupHead :=
  {| g_type := type_; g_name := name; g_label := label; g_logics := None;
     g_repeat_count := repeat_count |}.

(** [Survey(name="s", label="S", items=[QuestionGroup(type="group",
    name="g", label="G", items=[color_question])])] *)
Definition group_survey : Survey :=
  {| s_name := "s"; s_label := "S";
     s_items := [IGroup (group_head (GStr "group") "g" "G" None)
                        [IQuestion color_question]] |}.

(** A row of the survey sheet with the three columns every item has. *)
Definition survey_row (type_ name label : string) : Dict :=
  [("type", PStr type_); ("name", PStr name); ("label", PStr label)].

Definition no_group : Grouping := {| groups := []; current_group := None |}.

(** What [prep_for_excel] does to one cell, before the empty columns are
    dropped. *)
Definition prep_cell (v : PyVal) : PyVal :=
  replace_cell [(PStr "", PNone); (PBool true, PStr "yes"); (PBool false, PStr "no")]
    (replace_cell [(PStr "[]", PStr ""); (PStr "{}", PStr "")]
       (PStr (py_str (if isna v then PStr "" else v)))).

Definition text_question : Question := question "text" "q" "Q".

(** The cells of the column [type] of a frame. *)
Definition type_column (df : DataFrame) : list PyVal :=
  map (fun r => cell r "type") (rows df).

(** ** The rules of [Question], read off [validate_by_type]

    A second reading of the validators, as a test on the keyword arguments
    and the object they give; [Question_init] is compared with it below. *)

Definition file_types : list string :=
  ["select_one_from_file"; "select_multiple_from_file"].

Definition geo_types : list string := ["geopoint"; "geotrace"; "geoshape"].

(** [parameters] after the three assignments of a range question. *)
Definition range_parameters (parameters : option Dict) (r : Range) : Dict :=
  dict_set
    (dict_set
       (dict_set (match parameters with Some d => d | None => [] end)
                 "start" (number_val (r_start r)))
       "end" (number_val (r_end r)))
    "step" (number_val (r_step r)).

Definition appearance_ok (a : Question) : bool :=
  match q_appearance_attributes a with
  | None => true
  | Some s =>
      str_in s (member_values AppearanceAttributes) &&
      check_appearance_question_combo s (Some (q_type a))
  end.

(** The keyword arguments [Question(...)] accepts. *)
Definition acceptable (a : Question) : bool :=
  hasattr QuestionTypes (q_type a) &&
  negb (str_in (q_name a) RESERVED_NAMES) &&
  appearance_ok a &&
  (negb (str_in (q_type a) ["calculate"]) || present (q_calculation a)) &&
  (negb (str_in (q_type a) choice_types) || present (q_choices a)) &&
  (negb (str_in (q_type a) file_types) || present (q_file a)) &&
  (negb (String.eqb (q_type a) "range") || present (q_range a)).

(** The object they give. *)
Definition normalised (a : Question) : Question :=
  {| q_type := q_type a; q_name := q_name a; q_label := q_label a;
     q_required := q_required a; q_default := q_default a; q_hint := q_hint a;
     q_logics := q_logics a;
     q_calculation := if str_in (q_type a) ["calculate"] then q_calculation a else None;
     q_range := q_range a;
     q_accuracyThreshold :=
       if str_in (q_type a) geo_types then q_accuracyThreshold a else None;
     q_choices := if str_in (q_type a) choice_types then q_choices a else None;
     q_allow_other := if str_in (q_type a) choice_types then q_allow_other a else None;
     q_file := if str_in (q_type a) file_types then q_file a else None;
     q_parameters :=
       if String.eqb (q_type a) "range"
       then match q_range a with
            | Some r => Some (range_parameters (q_parameters a) r)
            | None => q_parameters a
            end
       else q_parameters a;
     q_appearance_attributes := q_appearance_attributes a |}.

(** The text has a lower-case ASCII letter. *)
Fixpoint has_lower (s : string) : bool :=
  match s with
  | EmptyString => false
  | String c r =>
      let n := nat_of_ascii c in
      ((97 <=? n)%nat && (n <=? 122)%nat) || has_lower r
  end.

(** The attribute is the first component of some pair of the relation. *)
Definition attribute_in_relation (s : string) : bool :=
  existsb (fun c => String.eqb s (fst c)) Appearance_Question_Combos.



(** ** What [items_to_dfs] writes, read off its loop *)

(** The row of the choices sheet for a choice of the list [list_name]. *)
Definition choice_row (list_name : string) (choice : Choice) : Dict :=
  [("list_name", PStr list_name); ("name", PStr (c_value choice));
   ("label", PStr (c_label choice))].





(** ** The loop of [group_items] after rows already grouped *)

(** The state of the loop when the items [pre] were in [groups] before. *)
Definition prepend (pre : list Item) (st : Grouping) : Grouping :=
  {| groups := (pre ++ groups st)%list;
     current_group := option_map (Nat.add (List.length pre)) (current_group st) |}.


(** A workbook as read: a repeat group "g" around the question "color". *)
Definition repeat_sheets : Sheets :=
  {| sh_survey :=
       {| columns := ["type"; "name"; "label"; "repeat_count"];
          rows := [ [("type", PStr "begin repeat"); ("name", PStr "g"); ("label", PStr "G");
                     ("repeat_count", PStr "3")];
                    [("type", PStr "select_one color"); ("name", PStr "color");
                     ("label", PStr "Color"); ("repeat_count", NaN)];
                    [("type", PStr "end repeat"); ("name", PStr "g"); ("label", PStr "G");
                     ("repeat_count", NaN)] ] |};
     sh_choices := color_choices_df;
     sh_settings :=
       {| columns := ["form_id"; "form_title"];
          rows := [[("form_id", PStr "s"); ("form_title", PStr "S")]] |} |}.

(** ** The session state of the app (make_assistant.py)

    [st.session_state] is used as a dict from names to values. *)

(** [st_init_null], called with the names [variable_names], on the
    session state. *)
Definition st_init_null (variable_names : list string) (session_state : Dict) : Dict :=
  fold_left (fun session_state variable_name =>
               match dict_get session_state variable_name with
               | None => dict_set session_state variable_name PNone
               | Some _ => session_state
               end)
            variable_names session_state.

(** ** The column type of the survey frame *)



(** What the loop of [items_to_dfs] adds to its lists between two states:
    new objects after those of the store, and rows for them whose cells
    under type are [cells]. *)
Definition adds_rows (st st' : Lists) (cells : list PyVal) : Prop :=
  exists more new,
    store st' = (store st ++ more)%list /\
    survey_rows st' = (survey_rows st ++ new)%list /\
    Forall (fun a => (a < List.length (store st'))%nat) new /\
    map (fun a => cell (deref st' a) "type") new = cells.


(** ** The choices sheet as a frame *)

(** The frame of a choices sheet with the columns list_name, name and
    label, from the list name and the choice of each row. *)
Definition choices_frame (l : list (string * Choice)) : DataFrame :=
  {| columns := ["list_name"; "name"; "label"];
     rows := map (fun p => choice_row (fst p) (snd p)) l |}.

(** The choices a sheet gives for a list name, in the order of the rows. *)
Definition choices_of (l : list (string * Choice)) (list_name : string) : list Choice :=
  map snd (filter (fun p => String.eqb (fst p) list_name) l).
(** * Properties *)

Opaque RESERVED_NAMES.

(** Projections of the records of fields, values and questions, and the
    small functions between them. *)
Ltac project :=
  cbn [validate_fields fields_of_args with_appearance set_v_appearance
       f_type f_name f_label f_required f_default f_hint f_logics f_calculation
       f_range f_accuracyThreshold f_choices f_allow_other f_file f_parameters
       f_appearance_attributes
       q_type q_name q_label q_required q_default q_hint q_logics q_calculation
       q_range q_accuracyThreshold q_choices q_allow_other q_file q_parameters
       q_appearance_attributes
       v_type v_name v_label v_required v_default v_hint v_logics v_calculation
       v_range v_accuracyThreshold v_choices v_allow_other v_file v_parameters
       v_appearance_attributes
       required_slot validated present values_item bind].

Ltac project_in H :=
  cbn [validate_fields fields_of_args with_appearance set_v_appearance
       f_type f_name f_label f_required f_default f_hint f_logics f_calculation
       f_range f_accuracyThreshold f_choices f_allow_other f_file f_parameters
       f_appearance_attributes
       q_type q_name q_label q_required q_default q_hint q_logics q_calculation
       q_range q_accuracyThreshold q_choices q_allow_other q_file q_parameters
       q_appearance_attributes
       v_type v_name v_label v_required v_default v_hint v_logics v_calculation
       v_range v_accuracyThreshold v_choices v_allow_other v_file v_parameters
       v_appearance_attributes
       required_slot validated present values_item bind] in H.

(** ** Membership tests *)

Lemma str_in_In (s : string) (l : list string) : str_in s l = true <-> In s l.
Proof.
  unfold str_in. rewrite existsb_exists. split.
  - intros [x [Hx He]]. apply String.eqb_eq in He. subst. exact Hx.
  - intros H. exists s. split; [exact H | apply String.eqb_refl].
Qed.

Lemma str_in_not_In (s : string) (l : list string) : str_in s l = false <-> ~ In s l.
Proof.
  rewrite <- str_in_In. destruct (str_in s l); split; congruence.
Qed.

(** ** Logic *)

(** C10. A Logic of type "constraint" built without a message is accepted
    and its message is None; no type makes a message required (the call
    never fails); a type other than "constraint" clears the message, and
    "constraint" keeps what was passed. *)
Theorem C10_logic_message_never_required :
  (forall e, Logic_init "constraint" e None
             = Ok {| l_type := "constraint"; l_expression := e; l_message := None |}) /\
  (forall t e m, exists l, Logic_init t e m = Ok l) /\
  (forall t e m l, Logic_init t e m = Ok l -> t <> "constraint" -> l_message l = None) /\
  (forall e m l, Logic_init "constraint" e m = Ok l -> l_message l = m).
Proof.
  split; [ | split; [ | split ] ].
  - intros e. reflexivity.
  - intros t e m. eexists. reflexivity.
  - intros t e m l H Ht. injection H as <-. cbn [l_message].
    destruct m as [v|]; [ | reflexivity ].
    unfold validate_message. apply String.eqb_neq in Ht. rewrite Ht. reflexivity.
  - intros e m l H. injection H as <-. cbn [l_message]. destruct m; reflexivity.
Qed.

Lemma C10_logic_message_witness :
  l_message {| l_type := "skip"; l_expression := "${q2} = 2"; l_message := None |} = None.
Proof.
  apply (proj1 (proj2 (proj2 C10_logic_message_never_required))
           "skip" "${q2} = 2" (Some "never shown")).
  - reflexivity.
  - discriminate.
Defined.

(** ** Question: the shape of a validation *)

Lemma check_associated_present {T : Type} (type_ : string) (q_type : list string)
    (s : slot (option T)) (required : bool) :
  present s = true ->
  check_associated type_ q_type s required = Raise ValueError \/
  exists s', check_associated type_ q_type s required = Ok s'.
Proof.
  intros Hp. unfold check_associated.
  destruct (str_in type_ q_type); [ | right; eexists; reflexivity ].
  destruct required; [ | right; eexists; reflexivity ].
  destruct s as [[v|]|]; cbn [values_item bind]; try discriminate.
  - right; eexists; reflexivity.
  - left; reflexivity.
Qed.

Lemma check_associated_optional {T : Type} (type_ : string) (q_type : list string)
    (s : slot (option T)) :
  exists s', check_associated type_ q_type s false = Ok s'.
Proof.
  unfold check_associated. destruct (str_in type_ q_type); eexists; reflexivity.
Qed.

(** When the fields the root validator reads are all in [values], it
    returns or raises ValueError: no KeyError, no AttributeError. *)
Lemma validate_by_type_typed (v : QValues) :
  present (v_type v) = true -> present (v_calculation v) = true ->
  present (v_choices v) = true -> present (v_file v) = true ->
  present (v_range v) = true -> present (v_parameters v) = true ->
  validate_by_type v = Raise ValueError \/ exists v', validate_by_type v = Ok v'.
Proof.
  intros Ht Hc Hch Hf Hr Hp. unfold validate_by_type.
  destruct (v_type v) as [t|]; [cbn [values_item bind] | discriminate].
  destruct (hasattr QuestionTypes t); cbn [negb]; [ | left; reflexivity ].
  destruct (check_associated_present t ["calculate"] (v_calculation v) true Hc)
    as [E | [s1 E]]; rewrite E; cbn [bind]; [left; reflexivity | ].
  destruct (check_associated_present t choice_types (v_choices v) true Hch)
    as [E2 | [s2 E2]]; rewrite E2; cbn [bind]; [left; reflexivity | ].
  destruct (check_associated_optional t choice_types (v_allow_other v)) as [s3 E3].
  rewrite E3; cbn [bind].
  destruct (check_associated_optional t ["geopoint"; "geotrace"; "geoshape"]
              (v_accuracyThreshold v)) as [s4 E4].
  rewrite E4; cbn [bind].
  destruct (check_associated_present t
              ["select_one_from_file"; "select_multiple_from_file"] (v_file v) true Hf)
    as [E5 | [s5 E5]]; rewrite E5; cbn [bind]; [left; reflexivity | ].
  destruct (String.eqb t "range").
  - destruct (v_range v) as [[r|]|]; cbn [values_item bind]; try discriminate.
    + destruct (v_parameters v) as [p|]; cbn [values_item bind]; try discriminate.
      right; eexists; reflexivity.
    + left; reflexivity.
  - cbn [bind]. right; eexists; reflexivity.
Qed.

Lemma optional_slot_present {T : Type} (o : option T) :
  present (optional_slot (fld_of_option o)) = true.
Proof. destruct o; reflexivity. Qed.

Lemma typed_root (a : Question) :
  validate_by_type (validate_fields (fields_of_args a)) = Raise ValueError \/
  exists v', validate_by_type (validate_fields (fields_of_args a)) = Ok v'.
Proof.
  apply validate_by_type_typed; project;
    try apply optional_slot_present; reflexivity.
Qed.

(** A call with keyword arguments builds an object or raises
    ValidationError. *)
Lemma Question_init_cases (a : Question) :
  Question_init a = Raise ValidationError \/ exists q, Question_init a = Ok q.
Proof.
  unfold Question_init, Question_validate.
  destruct (typed_root a) as [E | [v' E]]; rewrite E.
  - left; reflexivity.
  - destruct (no_errors _); [ | left; reflexivity ].
    destruct (Question_of_values v'); [right; eexists; reflexivity | left; reflexivity].
Qed.

(** An error recorded by a field ends in ValidationError. *)
Lemma field_error_rejected (a : Question) :
  no_errors (validate_fields (fields_of_args a)) = false ->
  Question_init a = Raise ValidationError.
Proof.
  intros N. destruct (Question_init_cases a) as [E | [q E]]; [exact E | exfalso].
  unfold Question_init, Question_validate in E.
  destruct (validate_by_type _) as [v'|e]; [ | destruct (recorded e); discriminate ].
  rewrite N in E. discriminate.
Qed.

(** The entries of [values] behind a built object. *)
Lemma Question_of_values_Some (v : QValues) (q : Question) :
  Question_of_values v = Some q ->
  v_type v = Some (q_type q) /\ v_name v = Some (q_name q) /\
  v_label v = Some (q_label q) /\ v_required v = Some (q_required q) /\
  v_default v = Some (q_default q) /\ v_hint v = Some (q_hint q) /\
  v_logics v = Some (q_logics q) /\ v_calculation v = Some (q_calculation q) /\
  v_range v = Some (q_range q) /\
  v_accuracyThreshold v = Some (q_accuracyThreshold q) /\
  v_choices v = Some (q_choices q) /\ v_allow_other v = Some (q_allow_other q) /\
  v_file v = Some (q_file q) /\ v_parameters v = Some (q_parameters q) /\
  v_appearance_attributes v = Some (q_appearance_attributes q).
Proof.
  unfold Question_of_values.
  destruct (v_type v); [ | discriminate ].
  destruct (v_name v); [ | discriminate ].
  destruct (v_label v); [ | discriminate ].
  destruct (v_required v); [ | discriminate ].
  destruct (v_default v); [ | discriminate ].
  destruct (v_hint v); [ | discriminate ].
  destruct (v_logics v); [ | discriminate ].
  destruct (v_calculation v); [ | discriminate ].
  destruct (v_range v); [ | discriminate ].
  destruct (v_accuracyThreshold v); [ | discriminate ].
  destruct (v_choices v); [ | discriminate ].
  destruct (v_allow_other v); [ | discriminate ].
  destruct (v_file v); [ | discriminate ].
  destruct (v_parameters v); [ | discriminate ].
  destruct (v_appearance_attributes v); [ | discriminate ].
  intros H. injection H as <-. cbn. repeat split; reflexivity.
Qed.

(** What the root validator returns, entry by entry. *)
Lemma validate_by_type_Ok (v v' : QValues) :
  validate_by_type v = Ok v' ->
  exists t,
    v_type v = Some t /\ hasattr QuestionTypes t = true /\
    v_type v' = v_type v /\ v_name v' = v_name v /\ v_label v' = v_label v /\
    v_required v' = v_required v /\ v_default v' = v_default v /\
    v_hint v' = v_hint v /\ v_logics v' = v_logics v /\ v_range v' = v_range v /\
    v_appearance_attributes v' = v_appearance_attributes v /\
    check_associated t ["calculate"] (v_calculation v) true = Ok (v_calculation v') /\
    check_associated t choice_types (v_choices v) true = Ok (v_choices v') /\
    check_associated t choice_types (v_allow_other v) false = Ok (v_allow_other v') /\
    check_associated t ["geopoint"; "geotrace"; "geoshape"] (v_accuracyThreshold v) false
      = Ok (v_accuracyThreshold v') /\
    check_associated t ["select_one_from_file"; "select_multiple_from_file"]
      (v_file v) true = Ok (v_file v').
Proof.
  unfold validate_by_type.
  destruct (v_type v) as [t|]; [cbn [values_item bind] | discriminate].
  destruct (hasattr QuestionTypes t) eqn:Ht; cbn [negb]; [ | discriminate ].
  destruct (check_associated t ["calculate"] _ true) as [c1|] eqn:C1; [ | discriminate ].
  destruct (check_associated t choice_types (v_choices v) true) as [c2|] eqn:C2;
    [ | discriminate ].
  destruct (check_associated t choice_types (v_allow_other v) false) as [c3|] eqn:C3;
    [ | discriminate ].
  destruct (check_associated t ["geopoint"; "geotrace"; "geoshape"] _ false) as [c4|] eqn:C4;
    [ | discriminate ].
  destruct (check_associated t ["select_one_from_file"; "select_multiple_from_file"] _ true)
    as [c5|] eqn:C5; [ | discriminate ].
  cbn [bind].
  match goal with |- context [bind ?c _] => destruct c as [c6|]; [ | discriminate ] end.
  cbn [bind]. intros H. injection H as <-. exists t.
  repeat split; try reflexivity; assumption.
Qed.

(** What a successful call keeps of its arguments. *)
Lemma Question_init_Ok (a q : Question) :
  Question_init a = Ok q ->
  hasattr QuestionTypes (q_type a) = true /\
  q_type q = q_type a /\ q_name q = q_name a /\ q_label q = q_label a /\
  q_range q = q_range a /\
  q_appearance_attributes q = q_appearance_attributes a /\
  q_calculation q = (if str_in (q_type a) ["calculate"] then q_calculation a else None) /\
  q_choices q = (if str_in (q_type a) choice_types then q_choices a else None) /\
  q_allow_other q = (if str_in (q_type a) choice_types then q_allow_other a else None) /\
  q_accuracyThreshold q =
    (if str_in (q_type a) ["geopoint"; "geotrace"; "geoshape"]
     then q_accuracyThreshold a else None) /\
  q_file q = (if str_in (q_type a) ["select_one_from_file"; "select_multiple_from_file"]
              then q_file a else None).
Proof.
  unfold Question_init, Question_validate. intros H.
  destruct (validate_by_type _) as [v'|e] eqn:E;
    [ | destruct (recorded e); discriminate ].
  destruct (no_errors _) eqn:N; [ | discriminate ].
  destruct (Question_of_values v') as [q'|] eqn:Q; [ | discriminate ].
  injection H as <-.
  apply Question_of_values_Some in Q.
  destruct Q as (Q1 & Q2 & Q3 & _ & _ & _ & _ & Q8 & Q9 & Q10 & Q11 & Q12 & Q13 & _ & Q15).
  apply validate_by_type_Ok in E.
  destruct E as (t & E0 & Ht & E1 & E2 & E3 & _ & _ & _ & _ & E9 & E15 & C1 & C2 & C3 & C4 & C5).
  rewrite Q1 in E1. rewrite Q2 in E2. rewrite Q3 in E3. rewrite Q9 in E9.
  rewrite Q15 in E15. rewrite Q8 in C1. rewrite Q11 in C2. rewrite Q12 in C3.
  rewrite Q10 in C4. rewrite Q13 in C5.
  project_in E0; project_in E1; project_in E2; project_in E3; project_in E9;
  project_in E15; project_in C1; project_in C2; project_in C3; project_in C4;
  project_in C5.
  injection E0 as <-. injection E1 as E1.
  unfold check_associated in C1, C2, C3, C4, C5.
  assert (Hname : q_name q' = q_name a).
  { unfold validate_name in E2. destruct (str_in (q_name a) RESERVED_NAMES); congruence. }
  assert (Happ : q_appearance_attributes q' = q_appearance_attributes a).
  { destruct (q_appearance_attributes a) as [s|]; [ | congruence ].
    destruct (str_in s (member_values AppearanceAttributes)); [ | discriminate ].
    unfold check_appearance_attributes in E15.
    destruct (negb _); [discriminate | congruence]. }
  assert (Hrange : q_range q' = q_range a).
  { destruct (q_range a); cbn in E9; congruence. }
  repeat split; try assumption; try congruence.
  - destruct (str_in (q_type a) ["calculate"]); [ | congruence ].
    destruct (q_calculation a); cbn in C1; congruence.
  - destruct (str_in (q_type a) choice_types); [ | congruence ].
    destruct (q_choices a); cbn in C2; congruence.
  - destruct (str_in (q_type a) choice_types); [ | congruence ].
    destruct (q_allow_other a); cbn in C3; congruence.
  - destruct (str_in (q_type a) ["geopoint"; "geotrace"; "geoshape"]); [ | congruence ].
    destruct (q_accuracyThreshold a); cbn in C4; congruence.
  - destruct (str_in (q_type a) ["select_one_from_file"; "select_multiple_from_file"]);
      [ | congruence ].
    destruct (q_file a); cbn in C5; congruence.
Qed.

(** ** Question: fields that depend on the type *)

(** Examples of the docstring of [Question] and of the repository's test:
    a text question, a geopoint with its accuracy threshold, a multiple
    choice with [allow_other], a choice from a file. *)
Lemma documented_questions_are_built :
  Question_init (question "text" "text_question" "What is your name?")
    = Ok (question "text" "text_question" "What is your name?") /\
  is_ok (Question_init
           {| q_type := "geopoint"; q_name := "geopoint_question"; q_label := "Location";
              q_required := None; q_default := None; q_hint := None; q_logics := None;
              q_calculation := None; q_range := None;
              q_accuracyThreshold := Some "5.0"; q_choices := None;
              q_allow_other := None; q_file := None; q_parameters := None;
              q_appearance_attributes := None |}) = true /\
  is_ok (Question_init
           {| q_type := "select_multiple"; q_name := "select_multiple_question";
              q_label := "Select all that apply:";
              q_required := None; q_default := None; q_hint := None; q_logics := None;
              q_calculation := None; q_range := None; q_accuracyThreshold := None;
              q_choices := Some [red; blue]; q_allow_other := Some true;
              q_file := None; q_parameters := None;
              q_appearance_attributes := None |}) = true /\
  is_ok (Question_init
           {| q_type := "select_one_from_file"; q_name := "select_one_from_file_question";
              q_label := "Select an option:";
              q_required := None; q_default := None; q_hint := None; q_logics := None;
              q_calculation := None; q_range := None; q_accuracyThreshold := None;
              q_choices := None; q_allow_other := None; q_file := Some "choices.csv";
              q_parameters := None; q_appearance_attributes := None |}) = true.
Proof. repeat split; vm_compute; reflexivity. Qed.

(** A range question copies start, end and step into its parameters. *)
Lemma range_fills_parameters :
  exists q,
    Question_init
      {| q_type := "range"; q_name := "range_question";
         q_label := "Number of individuals observed:";
         q_required := None; q_default := None; q_hint := None; q_logics := None;
         q_calculation := None;
         q_range := Some {| r_start := NInt 0; r_end := NInt 100; r_step := NInt 5 |};
         q_accuracyThreshold := None; q_choices := None; q_allow_other := None;
         q_file := None; q_parameters := None; q_appearance_attributes := None |}
    = Ok q /\
    q_parameters q = Some [("start", PInt 0); ("end", PInt 100); ("step", PInt 5)].
Proof. eexists. split; vm_compute; reflexivity. Qed.

(** C7. [Question(type="calculate", name="c", label="L")] fails with a
    validation error; with [calculation="a+b"] it is built, and the built
    object has no range, choices, file or accuracyThreshold.  A calculate
    question without a calculation is always rejected, a built calculate
    question never has choices, file or accuracyThreshold, and a question
    of any other type is built with its calculation set to None. *)
Theorem C7_calculation_follows_type :
  Question_init (question "calculate" "c" "L") = Raise ValidationError /\
  (exists q,
     Question_init (with_calculation (question "calculate" "c" "L") (Some "a+b")) = Ok q /\
     q_calculation q = Some "a+b" /\ q_range q = None /\ q_choices q = None /\
     q_file q = None /\ q_accuracyThreshold q = None) /\
  (forall a, q_type a = "calculate" -> q_calculation a = None ->
             Question_init a = Raise ValidationError) /\
  (forall a q, Question_init a = Ok q -> q_type a = "calculate" ->
               q_choices q = None /\ q_file q = None /\ q_accuracyThreshold q = None) /\
  (forall a q, Question_init a = Ok q -> q_type a <> "calculate" ->
               q_calculation q = None).
Proof.
  split; [ reflexivity | ].
  split; [ eexists; repeat split; reflexivity | ].
  split; [ | split ].
  - intros a Ht Hc.
    destruct (Question_init_cases a) as [E | [q E]]; [exact E | exfalso].
    unfold Question_init, Question_validate in E.
    destruct (validate_by_type _) as [v'|e] eqn:V;
      [ | destruct (recorded e); discriminate ].
    apply validate_by_type_Ok in V.
    destruct V as (t & E0 & _ & _ & _ & _ & _ & _ & _ & _ & _ & _ & C1 & _).
    project_in E0. project_in C1.
    injection E0 as <-. rewrite Ht, Hc in C1. discriminate C1.
  - intros a q H Ht. apply Question_init_Ok in H.
    destruct H as (_ & _ & _ & _ & _ & _ & _ & H8 & _ & H10 & H11).
    rewrite Ht in H8, H10, H11. repeat split; assumption.
  - intros a q H Ht. apply Question_init_Ok in H.
    destruct H as (_ & _ & _ & _ & _ & _ & H7 & _).
    rewrite H7. cbn [str_in existsb]. apply String.eqb_neq in Ht. rewrite Ht. reflexivity.
Qed.

Lemma C7_calculation_witness :
  q_calculation (question "text" "q" "L") = None.
Proof.
  apply (proj2 (proj2 (proj2 (proj2 C7_calculation_follows_type)))
           (with_calculation (question "text" "q" "L") (Some "1+1"))).
  - reflexivity.
  - discriminate.
Defined.

(** ** Question: reserved names *)



(** ** Question: appearance attributes *)




(** An attribute that is not paired with the type is rejected. *)
Lemma incompatible_appearance_rejected (a : Question) (s : string) :
  q_appearance_attributes a = Some s ->
  check_appearance_question_combo s (Some (q_type a)) = false ->
  Question_init a = Raise ValidationError.
Proof.
  intros Ha Hc. apply field_error_rejected. unfold no_errors.
  assert (Hn : v_appearance_attributes (validate_fields (fields_of_args a)) = None).
  { project. rewrite Ha.
    destruct (str_in s (member_values AppearanceAttributes)); [ | reflexivity ].
    unfold check_appearance_attributes. rewrite Hc. reflexivity. }
  rewrite Hn. cbn [present]. apply andb_false_r.
Qed.





(** ** QuestionGroup *)

(** The default of [type] is the member [GroupTypes.group], and
    [validate_repeat] starts by asking [hasattr] for it. *)
Lemma default_type_rejected (a : QuestionGroupArgs) :
  ga_type a = None -> is_ok (QuestionGroup_init a) = false.
Proof.
  intros H. unfold QuestionGroup_init. rewrite H.
  destruct (mapM union_validate (ga_items a)); reflexivity.
Qed.

(** The group a call builds has a repeat type, as a str or as the member,
    exactly when it has a repeat_count. *)
Lemma repeat_type_iff_repeat_count (a : QuestionGroupArgs) (g : GroupHead)
    (items : list Item) :
  QuestionGroup_init a = Ok (IGroup g items) ->
  (g_type g = GStr "repeat" \/ g_type g = GMember "repeat") <-> g_repeat_count g <> None.
Proof.
  unfold QuestionGroup_init.
  destruct (mapM union_validate (ga_items a)) as [items'|]; [ cbn [bind] | discriminate ].
  destruct (ga_type a) as [s|]; [ | discriminate ].
  unfold validate_repeat. cbn [hasattr_GroupTypes bind is_repeat].
  destruct (hasattr GroupTypes s); cbn [negb]; [ | discriminate ].
  destruct (String.eqb s "repeat") eqn:Es.
  - apply String.eqb_eq in Es. subst s.
    destruct (ga_repeat_count a) as [rc|] eqn:Erc; [ | discriminate ].
    destruct (ga_label a); [ | discriminate ].
    intros H. injection H as <- <-. cbn [g_type g_repeat_count].
    split; [ discriminate | left; reflexivity ].
  - apply String.eqb_neq in Es.
    destruct (ga_repeat_count a) as [rc|] eqn:Erc;
      (destruct (ga_label a); [ | discriminate ]);
      intros H; injection H as <- <-; cbn [g_type g_repeat_count].
    + split; [ discriminate | right; reflexivity ].
    + split; [ intros [H | H]; [ congruence | discriminate ] | congruence ].
Qed.

(** C6. [QuestionGroup(name="g", label="G", items=[], repeat_count=2)],
    the type left to its default, raises a validation error instead of
    making a group of type "repeat": no call that leaves out the type
    succeeds.  With the type passed as a str: "repeat" without a
    repeat_count is rejected, "repeat" with one is built, and "group" with
    a repeat_count is built with the member [GroupTypes.repeat] as its
    type; a built group has a repeat type (the str or the member) exactly
    when it has a repeat_count. *)
Theorem C6_default_type_is_rejected :
  QuestionGroup_init (group_args None "g" "G" [] (Some (inl 2%Z)))
    = Raise ValidationError /\
  (forall a, ga_type a = None -> is_ok (QuestionGroup_init a) = false) /\
  QuestionGroup_init (group_args (Some "repeat") "g" "G" [] None)
    = Raise ValidationError /\
  QuestionGroup_init (group_args (Some "repeat") "g" "G" [] (Some (inl 3%Z)))
    = Ok (IGroup (group_head (GStr "repeat") "g" "G" (Some (inl 3%Z))) []) /\
  QuestionGroup_init (group_args (Some "group") "g" "G" [] (Some (inl 2%Z)))
    = Ok (IGroup (group_head (GMember "repeat") "g" "G" (Some (inl 2%Z))) []) /\
  (forall a g items,
     QuestionGroup_init a = Ok (IGroup g items) ->
     (g_type g = GStr "repeat" \/ g_type g = GMember "repeat")
     <-> g_repeat_count g <> None).
Proof.
  split; [ reflexivity | ].
  split; [ exact default_type_rejected | ].
  split; [ reflexivity | ].
  split; [ reflexivity | ].
  split; [ reflexivity | exact repeat_type_iff_repeat_count ].
Qed.

Lemma C6_default_type_witness :
  is_ok (QuestionGroup_init (group_args None "group_1" "Group 1"
                               [IQuestion (question "text" "q" "Q")] None)) = false.
Proof.
  apply (proj1 (proj2 C6_default_type_is_rejected)). reflexivity.
Defined.

(** ** The loop of [group_items] *)

Lemma end_is_not_begin (t : string) :
  startswith t "end" = true -> startswith t "begin" = false.
Proof.
  unfold startswith. destruct t as [|c t]; [ discriminate | ].
  cbn [String.prefix]. destruct (ascii_dec "e" c) as [<-|]; [ | discriminate ].
  intros _. reflexivity.
Qed.

(** A row whose type is not a question type is not a Question. *)
Lemma not_a_question (row : Dict) (t : string) :
  dict_get row "type" = Some (PStr t) ->
  hasattr QuestionTypes t = false ->
  Question_parse_obj row = Raise ValidationError.
Proof.
  intros Hrow Ht. unfold Question_parse_obj, Question_validate, validate_by_type.
  cbn [validate_fields fields_of_row f_type v_type].
  unfold field_of at 1. rewrite Hrow. cbn [coerce_type coerce_str required_slot values_item bind].
  rewrite Ht. reflexivity.
Qed.

(** A begin row: the new group goes to the end of [groups], whether a
    group is open or not, and becomes the open group. *)
Lemma begin_row_appends_to_groups (row : Dict) (st : Grouping) (t name : string)
    (new_group : Item) :
  dict_get row "type" = Some (PStr t) ->
  startswith t "begin" = true ->
  dict_get row "name" = Some (PStr name) ->
  QuestionGroup_init
    {| ga_type := Some (str_from 6 t); ga_name := name;
       ga_label := match field_of coerce_str row "label" with
                   | Given l => Some l
                   | _ => None
                   end;
       ga_items := []; ga_logics := None; ga_repeat_count := None |} = Ok new_group ->
  group_items_row row st
  = Ok {| groups := (groups st ++ [new_group])%list;
          current_group := Some (List.length (groups st)) |}.
Proof.
  intros Ht Hb Hn Hg. unfold group_items_row, dict_item.
  rewrite Ht. cbn [bind as_str]. rewrite Hb, Hn. cbn [bind coerce_str].
  rewrite Hg. reflexivity.
Qed.

(** C2. A begin row met while a group is open: the rows "begin group"
    (outer), "begin group" (inner), a text question and "end group" give
    two groups side by side in the result, the inner one (with the
    question) after the outer one and not inside its items. *)
Theorem C2_begin_inside_open_group :
  group_items [ survey_row "begin group" "outer" "Outer";
                survey_row "begin group" "inner" "Inner";
                survey_row "text" "q" "Q";
                survey_row "end group" "inner" "Inner" ]
  = Ok [ IGroup (group_head (GStr "group") "outer" "Outer" None) [];
         IGroup (group_head (GStr "group") "inner" "Inner" None)
                [IQuestion (question "text" "q" "Q")] ].
Proof. vm_compute. reflexivity. Qed.

(** A "begin repeat" row: the group is made without a repeat_count, which
    [validate_repeat] rejects. *)
Lemma begin_repeat_row_is_rejected :
  group_items [ [("type", PStr "begin repeat"); ("name", PStr "g"); ("label", PStr "G");
                 ("repeat_count", PStr "3")] ]
  = Raise ValidationError.
Proof. vm_compute. reflexivity. Qed.

(** C3 as stated fails: an "end group" row met while no group is open is
    parsed as a Question and decoding raises a validation error. *)
Lemma C3_end_row_counterexample :
  group_items_row (survey_row "end group" "g" "G") no_group = Raise ValidationError /\
  group_items_row (survey_row "end group" "g" "G") no_group <> Ok no_group /\
  group_items [survey_row "end" "e" "E"] = Ok [IQuestion (question "end" "e" "E")].
Proof.
  split; [ vm_compute; reflexivity | ].
  split; [ vm_compute; discriminate | vm_compute; reflexivity ].
Qed.

(** C3, amended. A row whose type starts with "end", met while no group is
    open, is handled as a question row: it goes through
    [Question.parse_obj], and the Question is appended to the outer list;
    when its type is not a question type (as "end group" or "end repeat")
    decoding raises a validation error. *)
Theorem C3_end_row_without_open_group (row : Dict) (st : Grouping) (t : string) :
  dict_get row "type" = Some (PStr t) ->
  startswith t "end" = true ->
  current_group st = None ->
  group_items_row row st
  = (q <- Question_parse_obj row ;;
     Ok {| groups := (groups st ++ [IQuestion q])%list; current_group := None |}) /\
  (hasattr QuestionTypes t = false -> group_items_row row st = Raise ValidationError).
Proof.
  intros Ht He Hc.
  assert (E : group_items_row row st
              = (q <- Question_parse_obj row ;;
                 Ok {| groups := (groups st ++ [IQuestion q])%list;
                       current_group := None |})).
  { unfold group_items_row, dict_item. rewrite Ht. cbn [bind as_str].
    rewrite (end_is_not_begin t He), He, Hc. cbn [present andb]. reflexivity. }
  split; [ exact E | ].
  intros Hq. rewrite E, (not_a_question row t Ht Hq). reflexivity.
Qed.

Lemma C3_end_row_witness :
  group_items_row (survey_row "end repeat" "g" "G") no_group = Raise ValidationError.
Proof.
  apply (proj2 (C3_end_row_without_open_group
                  (survey_row "end repeat" "g" "G") no_group "end repeat"
                  eq_refl eq_refl eq_refl)).
  reflexivity.
Defined.

(** ** The sheets *)

Lemma map_cells_map_cells (f g : PyVal -> PyVal) (df : DataFrame) :
  map_cells f (map_cells g df) = map_cells (fun v => f (g v)) df.
Proof.
  unfold map_cells. cbn [columns rows]. f_equal.
  rewrite map_map. apply map_ext. intros r.
  rewrite map_map. apply map_ext. intros [k v]. reflexivity.
Qed.

(** [prep_for_excel], cell by cell. *)
Lemma prep_for_excel_cells (df : DataFrame) :
  prep_for_excel df = dropna_columns (map_cells prep_cell df).
Proof.
  unfold prep_for_excel, replace, astype_str, fillna.
  rewrite !map_cells_map_cells. reflexivity.
Qed.

(** C4. [prep_for_excel] writes a boolean cell as the text "True" or
    "False", not "yes" or "no": the cells are made text ([astype(str)])
    before True and False are looked for, and the text "True" is not equal
    to True.  So it is for the required cell of a question in the survey
    sheet that [Survey.get_dfs] returns. *)
Theorem C4_booleans_in_the_sheets :
  (forall df, prep_for_excel df = dropna_columns (map_cells prep_cell df)) /\
  (forall b, prep_cell (PBool b) = PStr (if b then "True" else "False")) /\
  prep_for_excel (DataFrame_of [[("required", PBool true)]; [("required", PBool false)]])
    = {| columns := ["required"];
         rows := [[("required", PStr "True")]; [("required", PStr "False")]] |} /\
  (exists sh,
     get_dfs {| s_name := "s"; s_label := "S";
                s_items := [IQuestion (with_required color_question (Some true))] |} = Ok sh /\
     sh_survey sh
     = {| columns := ["type"; "name"; "label"; "required"];
          rows := [[("type", PStr "select_one color"); ("name", PStr "color");
                    ("label", PStr "Color"); ("required", PStr "True")]] |}).
Proof.
  split; [ exact prep_for_excel_cells | ].
  split; [ intros []; reflexivity | ].
  split; [ vm_compute; reflexivity | ].
  eexists. split; vm_compute; reflexivity.
Qed.

(** C5. The select_one question "color" with the choices (r, Red) and
    (b, Blue): [items_to_dfs] gives one survey row, of type "select_one
    color" and without a choices entry or column, and the two choices rows
    in order.  Read back, the choices sheet gives the list [red; blue]
    under "color", [link_choices] attaches that list to a row of type
    "select_one color", and the saved survey parses to itself. *)
Theorem C5_choice_encoding :
  (forall q, q_type q = "select_one" -> q_name q = "color" ->
             q_choices q = Some [red; blue] ->
             exists dfs row,
               items_to_dfs [IQuestion q] = Ok dfs /\
               rows (survey dfs) = [row] /\
               dict_get row "type" = Some (PStr "select_one color") /\
               dict_get row "choices" = None /\
               ~ In "choices" (columns (survey dfs)) /\
               choices dfs = color_choices_df) /\
  get_choice_dict (read_excel (prep_for_excel color_choices_df))
    = Ok [(PStr "color", [red; blue])] /\
  (forall row choice_dict,
     dict_get row "type" = Some (PStr "select_one color") ->
     link_choices row choice_dict
     = Ok (dict_set (dict_set row "type" (PStr "select_one")) "choices"
             (PList (map Choice_dict (choice_dict_get choice_dict "color"))))) /\
  choice_dict_get [(PStr "color", [red; blue])] "color" = [red; blue] /\
  Question_init color_question = Ok color_question /\
  save_and_parse color_survey = Ok color_survey.
Proof.
  split; [ | split; [ vm_compute; reflexivity | split; [ | repeat split ] ] ].
  - intros q Ht Hn Hc.
    destruct q as [ty nm lb rq df hn lg calc rg acc ch ao fl pm app].
    cbn [q_type q_name q_choices] in Ht, Hn, Hc. subst ty nm ch.
    eexists. eexists.
    split; [ cbv; reflexivity | ].
    split; [ reflexivity | ].
    split; [ reflexivity | ].
    split; [ reflexivity | ].
    split; [ | reflexivity ].
    cbn. intros H.
    repeat (destruct H as [H | H]; [ discriminate H | ]). exact H.
  - intros row cd H. unfold link_choices, dict_item. rewrite H. reflexivity.
Qed.

Lemma C5_choice_encoding_witness :
  link_choices (survey_row "select_one color" "color" "Color")
               [(PStr "color", [red; blue])]
  = Ok [("type", PStr "select_one"); ("name", PStr "color"); ("label", PStr "Color");
        ("choices", PList [Choice_dict red; Choice_dict blue])].
Proof.
  apply (proj1 (proj2 (proj2 C5_choice_encoding))
           (survey_row "select_one color" "color" "Color")
           [(PStr "color", [red; blue])]).
  reflexivity.
Defined.

(** ** Saving and parsing *)

(** The loop of [get_survey_args], fed by the generator, is the loop of
    [group_items] on the linked rows when every row can be linked. *)
Lemma linked_rows_are_grouped (survey_rows : list Dict) (choice_dict : ChoiceDict)
    (linked : list Dict) (st : Grouping) :
  mapM (fun d => link_choices d choice_dict) survey_rows = Ok linked ->
  loopM (fun d st => row <- link_choices d choice_dict ;; group_items_row row st)
        survey_rows st
  = loopM group_items_row linked st.
Proof.
  revert linked st. induction survey_rows as [|d r IH]; intros linked st H.
  - injection H as <-. reflexivity.
  - cbn [mapM] in H. destruct (link_choices d choice_dict) as [row|] eqn:E;
      [ cbn [bind] in H | discriminate ].
    destruct (mapM _ r) as [rows'|] eqn:E'; [ cbn [bind] in H | discriminate ].
    injection H as <-. cbn [loopM]. rewrite E. cbn [bind].
    destruct (group_items_row row st) as [st'|]; [ cbn [bind] | reflexivity ].
    apply IH. reflexivity.
Qed.

(** A survey without a question that has choices leaves the choices sheet
    empty, and [get_choice_dict] finds no column "list_name" to group by. *)
Lemma survey_without_choices_is_not_read_back :
  Question_init text_question = Ok text_question /\
  save_and_parse {| s_name := "s"; s_label := "S"; s_items := [IQuestion text_question] |}
  = Raise KeyError.
Proof. split; vm_compute; reflexivity. Qed.

Lemma group_survey_built : built_survey group_survey.
Proof.
  exists (s_items group_survey). split; [ | reflexivity ].
  constructor; [ | constructor ].
  apply (built_group (group_args (Some "group") "g" "G" [IQuestion color_question] None)).
  - constructor; [ | constructor ].
    apply (built_question color_question). reflexivity.
  - reflexivity.
Qed.

(** ** The rows of a group

    [items_to_dfs] appends the dict of a group to [survey_rows] twice and
    updates it in between. *)

Lemma nth_list_set {A : Type} (l : list A) (n : nat) (x d : A) :
  (n < List.length l)%nat -> nth n (list_set l n x) d = x.
Proof.
  revert n. induction l as [|y l IH]; intros n H; [ cbn in H; lia | ].
  destruct n as [|n]; [ reflexivity | ]. cbn. apply IH. cbn in H. lia.
Qed.

Lemma length_list_set {A : Type} (l : list A) (n : nat) (x : A) :
  List.length (list_set l n x) = List.length l.
Proof.
  revert n. induction l as [|y l IH]; intros n; [ reflexivity | ].
  destruct n; cbn; [ reflexivity | rewrite IH; reflexivity ].
Qed.

Lemma dict_get_set (d : Dict) (k : string) (v : PyVal) :
  dict_get (dict_set d k v) k = Some v.
Proof.
  induction d as [|[k' v'] d IH]; cbn.
  - rewrite String.eqb_refl. reflexivity.
  - destruct (String.eqb k k') eqn:E; cbn.
    + rewrite String.eqb_refl. reflexivity.
    + rewrite E. exact IH.
Qed.

(** Extending [survey_rows] with new dicts leaves the list's earlier
    entries in place and adds objects after those of the store. *)
Lemma extend_survey_rows (records : list Dict) (st : Lists) :
  exists new,
    survey_rows (extend_survey st records) = (survey_rows st ++ new)%list /\
    (List.length (store st) <= List.length (store (extend_survey st records)))%nat.
Proof.
  unfold extend_survey. revert st.
  induction records as [|d r IH]; intros st.
  - exists []. cbn. rewrite app_nil_r. split; [ reflexivity | lia ].
  - cbn [fold_left].
    destruct (IH (append_survey (snd (alloc st d)) (fst (alloc st d)))) as [new [H1 H2]].
    exists (List.length (store st) :: new).
    cbn [alloc fst snd append_survey survey_rows store] in *.
    rewrite H1. rewrite <- app_assoc. split; [ reflexivity | ].
    rewrite length_app in H2. cbn in H2. lia.
Qed.

(** The two rows of a group in [survey_rows] are one object, and when the
    loop turn is over its type says "end". *)
Lemma group_rows_are_one_object (g : GroupHead) (items : list Item) (t : string)
    (st st' : Lists) :
  g_type g = GStr t ->
  str_in t ["repeat"; "group"] = true ->
  items_to_dfs_item (IGroup g items) st = Ok st' ->
  exists a inner,
    survey_rows st' = (survey_rows st ++ [a] ++ inner ++ [a])%list /\
    dict_get (deref st' a) "type" = Some (PStr ("end " ++ t)).
Proof.
  intros Ht Hin H. cbn [items_to_dfs_item] in H.
  cbn [Item_dict dict_item dict_get String.eqb Ascii.eqb Bool.eqb bind] in H.
  rewrite Ht in H. cbn [GType_val py_in] in H.
  change (py_in (PStr t) ["repeat"; "group"]) with (str_in t ["repeat"; "group"]) in H.
  rewrite Hin in H.
  cbn [dict_del dict_get String.eqb Ascii.eqb Bool.eqb bind dict_remove] in H.
  destruct (loopM items_to_dfs_item items no_rows) as [inner|]; [ | discriminate H ].
  cbn [bind alloc] in H. injection H as <-.
  match goal with
  | |- context [extend_survey ?s ?r] =>
      destruct (extend_survey_rows r s) as [new [H1 H2]];
      remember (extend_survey s r) as st1 eqn:E1
  end.
  exists (List.length (store st)), new. split.
  - cbn [append_survey update_type extend_choices survey_rows]. rewrite H1.
    cbn [append_survey update_type survey_rows]. rewrite <- !app_assoc. reflexivity.
  - unfold deref at 1. cbn [append_survey update_type extend_choices store].
    rewrite nth_list_set.
    + apply dict_get_set.
    + cbn [append_survey update_type store] in H2.
      rewrite length_list_set, length_app in H2. cbn in H2. lia.
Qed.

(** C1. Saving a survey and parsing the file does not give the survey back
    when it has a group.  In [items_to_dfs] the two rows of a group are one
    dict object, whose type is "end ..." once the group is done; so the
    survey made of one group (type "group") holding the select_one
    question "color", which is built by the constructors, is written with
    both group rows reading "end group", and [parse_excel] raises a
    validation error on the first of them. *)
Theorem C1_group_survey_is_not_read_back :
  (forall g items t st st',
     g_type g = GStr t -> str_in t ["repeat"; "group"] = true ->
     items_to_dfs_item (IGroup g items) st = Ok st' ->
     exists a inner,
       survey_rows st' = (survey_rows st ++ [a] ++ inner ++ [a])%list /\
       dict_get (deref st' a) "type" = Some (PStr ("end " ++ t))) /\
  built_survey group_survey /\
  (exists sh, get_dfs group_survey = Ok sh /\
              type_column (sh_survey sh)
              = [PStr "end group"; PStr "select_one color"; PStr "end group"]) /\
  save_and_parse group_survey = Raise ValidationError /\
  save_and_parse group_survey <> Ok group_survey.
Proof.
  split; [ exact group_rows_are_one_object | ].
  split; [ exact group_survey_built | ].
  split; [ eexists; split; vm_compute; reflexivity | ].
  split; [ vm_compute; reflexivity | vm_compute; discriminate ].
Qed.

Lemma C1_group_survey_witness :
  exists a inner,
    survey_rows {| store := [[("type", PStr "end group"); ("name", PStr "g");
                              ("label", PStr "G"); ("logics", PNone);
                              ("repeat_count", PNone)]];
                   survey_rows := [0; 0]%nat;
                   choices_rows := [] |}
    = ([] ++ [a] ++ inner ++ [a])%list /\
    dict_get (deref {| store := [[("type", PStr "end group"); ("name", PStr "g");
                                  ("label", PStr "G"); ("logics", PNone);
                                  ("repeat_count", PNone)]];
                       survey_rows := [0; 0]%nat;
                       choices_rows := [] |} a) "type"
    = Some (PStr "end group").
Proof.
  apply (proj1 C1_group_survey_is_not_read_back
           (group_head (GStr "group") "g" "G" None) [] "group" no_rows).
  - reflexivity.
  - reflexivity.
  - reflexivity.
Defined.

(** * More of the module *)

(** ** Question: the validators as one test *)

Lemma slot_of_option {T : Type} (o : option T) :
  optional_slot (fld_of_option o) = Some o.
Proof. destruct o; reflexivity. Qed.

Lemma Question_init_rules (a : Question) :
  Question_init a = if acceptable a then Ok (normalised a) else Raise ValidationError.
Proof.
  destruct a as [ty nm lb rq df hn lg calc rg acc ch ao fl pm app].
  unfold Question_init, Question_validate, validate_by_type, acceptable, normalised,
    appearance_ok, no_errors, Question_of_values, check_associated, range_parameters,
    file_types, geo_types.
  project. rewrite !slot_of_option.
  unfold validate_name, check_appearance_attributes.
  destruct (hasattr QuestionTypes ty); cbn [negb andb]; [ | reflexivity ].
  destruct (str_in ty ["calculate"]); [ destruct calc as [calc|] | ];
    cbn [values_item bind recorded negb orb andb present];
    try (rewrite ?andb_false_r; reflexivity).
  all: destruct (str_in ty choice_types); try destruct ch as [ch|];
    cbn [values_item bind recorded negb orb andb present];
    try (rewrite ?andb_false_r; reflexivity).
  all: destruct (str_in ty ["geopoint"; "geotrace"; "geoshape"]); cbn [bind].
  all: destruct (str_in ty ["select_one_from_file"; "select_multiple_from_file"]);
    try destruct fl as [fl|];
    cbn [values_item bind recorded negb orb andb present];
    try (rewrite ?andb_false_r; reflexivity).
  all: destruct (String.eqb ty "range"); try destruct rg as [rg|];
    cbn [values_item bind recorded negb orb andb present];
    try (rewrite ?andb_false_r; reflexivity).
  all: destruct (str_in nm RESERVED_NAMES);
    cbn [values_item bind recorded negb orb andb present];
    try (rewrite ?andb_false_r; reflexivity).
  all: destruct app as [app|];
    [ destruct (str_in app (member_values AppearanceAttributes));
      [ destruct (check_appearance_question_combo app (Some ty)) | ] | ];
    cbn [values_item bind recorded negb orb andb present];
    try (rewrite ?andb_false_r; reflexivity); try reflexivity.
Qed.

(** X1. [Question(...)] with a question type and well-typed keyword
    arguments is decided by one test: the name is not reserved, the
    appearance attribute (when given) is an attribute paired with the
    type, and calculation, choices, file and range are given for the types
    that need them.  The object built keeps the arguments, with
    calculation, choices, allow_other, accuracyThreshold and file set to
    None for the types they do not belong to, and start, end and step
    written into parameters for a range question; a call that fails the
    test raises ValidationError. *)
Theorem X1_question_rules (a : Question) :
  hasattr QuestionTypes (q_type a) = true ->
  Question_init a = if acceptable a then Ok (normalised a) else Raise ValidationError.
Proof. intros _. exact (Question_init_rules a). Qed.

Lemma X1_question_rules_witness :
  Question_init (full_question "geopoint" (Some "hidden"))
  = Ok {| q_type := "geopoint"; q_name := "q"; q_label := "L";
          q_required := None; q_default := None; q_hint := None; q_logics := None;
          q_calculation := None;
          q_range := Some {| r_start := NInt 0; r_end := NInt 10; r_step := NInt 1 |};
          q_accuracyThreshold := None; q_choices := None; q_allow_other := None;
          q_file := None; q_parameters := None;
          q_appearance_attributes := Some "hidden" |}.
Proof.
  apply (X1_question_rules (full_question "geopoint" (Some "hidden"))). reflexivity.
Defined.

Lemma dict_get_set_other (d : Dict) (k k' : string) (v : PyVal) :
  k <> k' -> dict_get (dict_set d k' v) k = dict_get d k.
Proof.
  intros Hk. apply String.eqb_neq in Hk.
  induction d as [|[k0 v0] d IH]; cbn.
  - rewrite Hk. reflexivity.
  - destruct (String.eqb k' k0) eqn:E; cbn.
    + apply String.eqb_eq in E. subst k0. rewrite Hk. reflexivity.
    + destruct (String.eqb k k0); [ reflexivity | exact IH ].
Qed.

Lemma dict_set_same (d : Dict) (k : string) (v : PyVal) :
  dict_get d k = Some v -> dict_set d k v = d.
Proof.
  induction d as [|[k0 v0] d IH]; cbn; [ discriminate | ].
  destruct (String.eqb k k0) eqn:E.
  - intros H. injection H as <-. apply String.eqb_eq in E. subst. reflexivity.
  - intros H. rewrite (IH H). reflexivity.
Qed.

Lemma range_parameters_get (p : option Dict) (r : Range) :
  dict_get (range_parameters p r) "start" = Some (number_val (r_start r)) /\
  dict_get (range_parameters p r) "end" = Some (number_val (r_end r)) /\
  dict_get (range_parameters p r) "step" = Some (number_val (r_step r)).
Proof.
  unfold range_parameters. repeat split.
  - rewrite !dict_get_set_other by discriminate. apply dict_get_set.
  - rewrite dict_get_set_other by discriminate. apply dict_get_set.
  - apply dict_get_set.
Qed.

Lemma range_parameters_again (p : option Dict) (r : Range) :
  range_parameters (Some (range_parameters p r)) r = range_parameters p r.
Proof.
  destruct (range_parameters_get p r) as (H1 & H2 & H3).
  unfold range_parameters at 1.
  rewrite (dict_set_same _ _ _ H1), (dict_set_same _ _ _ H2), (dict_set_same _ _ _ H3).
  reflexivity.
Qed.

Lemma normalised_again (a : Question) : normalised (normalised a) = normalised a.
Proof.
  destruct a as [ty nm lb rq df hn lg calc rg acc ch ao fl pm app].
  unfold normalised. project.
  destruct (str_in ty ["calculate"]), (str_in ty geo_types), (str_in ty choice_types),
    (str_in ty file_types), (String.eqb ty "range");
    try reflexivity;
    destruct rg as [r|]; try reflexivity;
    rewrite range_parameters_again; reflexivity.
Qed.

Lemma normalised_acceptable (a : Question) :
  acceptable a = true -> acceptable (normalised a) = true.
Proof.
  destruct a as [ty nm lb rq df hn lg calc rg acc ch ao fl pm app].
  unfold acceptable, normalised, appearance_ok. project.
  destruct (str_in ty ["calculate"]), (str_in ty choice_types), (str_in ty file_types);
    cbn [negb orb]; intros H; exact H.
Qed.

(** X2. Validation is idempotent: the object a call builds, passed again
    as keyword arguments, builds the same object. *)
Theorem X2_question_built_twice (a q : Question) :
  Question_init a = Ok q -> Question_init q = Ok q.
Proof.
  rewrite (Question_init_rules a).
  destruct (acceptable a) eqn:E; [ | discriminate ].
  intros H. injection H as <-.
  rewrite Question_init_rules, (normalised_acceptable a E), normalised_again.
  reflexivity.
Qed.

Lemma X2_question_built_twice_witness :
  Question_init
    {| q_type := "calculate"; q_name := "q"; q_label := "L";
       q_required := None; q_default := None; q_hint := None; q_logics := None;
       q_calculation := Some "1";
       q_range := Some {| r_start := NInt 0; r_end := NInt 10; r_step := NInt 1 |};
       q_accuracyThreshold := None; q_choices := None; q_allow_other := None;
       q_file := None; q_parameters := None;
       q_appearance_attributes := Some "hidden" |}
  = Ok {| q_type := "calculate"; q_name := "q"; q_label := "L";
          q_required := None; q_default := None; q_hint := None; q_logics := None;
          q_calculation := Some "1";
          q_range := Some {| r_start := NInt 0; r_end := NInt 10; r_step := NInt 1 |};
          q_accuracyThreshold := None; q_choices := None; q_allow_other := None;
          q_file := None; q_parameters := None;
          q_appearance_attributes := Some "hidden" |}.
Proof.
  apply (X2_question_built_twice (full_question "calculate" (Some "hidden"))).
  reflexivity.
Defined.

(** ** Question: the range and the parameters *)

(** X3. A range question that is built has start, end and step of its
    range under those keys of its parameters, the other parameters the
    caller gave being kept; a range question without a range is rejected;
    a question of another type keeps its parameters and also its range,
    which is not cleared. *)
Theorem X3_range_and_parameters :
  (forall a q r,
     Question_init a = Ok q -> q_type a = "range" -> q_range a = Some r ->
     q_parameters q = Some (range_parameters (q_parameters a) r) /\
     dict_get (range_parameters (q_parameters a) r) "start" = Some (number_val (r_start r)) /\
     dict_get (range_parameters (q_parameters a) r) "end" = Some (number_val (r_end r)) /\
     dict_get (range_parameters (q_parameters a) r) "step" = Some (number_val (r_step r)) /\
     forall k, k <> "start" -> k <> "end" -> k <> "step" ->
               dict_get (range_parameters (q_parameters a) r) k
               = dict_get (match q_parameters a with Some d => d | None => [] end) k) /\
  (forall a, q_type a = "range" -> q_range a = None ->
             Question_init a = Raise ValidationError) /\
  (forall a q, Question_init a = Ok q -> q_type a <> "range" ->
               q_parameters q = q_parameters a /\ q_range q = q_range a).
Proof.
  split; [ | split ].
  - intros a q r H Ht Hr. rewrite Question_init_rules in H.
    destruct (acceptable a); [ | discriminate ]. injection H as <-.
    split; [ unfold normalised; project; rewrite Ht, Hr; reflexivity | ].
    destruct (range_parameters_get (q_parameters a) r) as (H1 & H2 & H3).
    repeat split; try assumption.
    intros k K1 K2 K3. unfold range_parameters.
    rewrite !dict_get_set_other by assumption. reflexivity.
  - intros a Ht Hr. rewrite Question_init_rules.
    unfold acceptable. rewrite Ht, Hr. cbn [String.eqb Ascii.eqb Bool.eqb negb orb present].
    rewrite andb_false_r. reflexivity.
  - intros a q H Ht. rewrite Question_init_rules in H.
    destruct (acceptable a); [ | discriminate ]. injection H as <-.
    unfold normalised; project. apply String.eqb_neq in Ht. rewrite Ht.
    split; reflexivity.
Qed.

Lemma X3_range_and_parameters_witness :
  q_parameters
    {| q_type := "range"; q_name := "n"; q_label := "L";
       q_required := None; q_default := None; q_hint := None; q_logics := None;
       q_calculation := None;
       q_range := Some {| r_start := NInt 0; r_end := NInt 100; r_step := NInt 5 |};
       q_accuracyThreshold := None; q_choices := None; q_allow_other := None;
       q_file := None;
       q_parameters := Some [("start", PInt 0); ("unit", PStr "m"); ("end", PInt 100);
                             ("step", PInt 5)];
       q_appearance_attributes := None |}
  = Some (range_parameters (Some [("start", PInt 7); ("unit", PStr "m")])
            {| r_start := NInt 0; r_end := NInt 100; r_step := NInt 5 |}).
Proof.
  apply (proj1 (proj1 X3_range_and_parameters
           {| q_type := "range"; q_name := "n"; q_label := "L";
              q_required := None; q_default := None; q_hint := None; q_logics := None;
              q_calculation := None;
              q_range := Some {| r_start := NInt 0; r_end := NInt 100; r_step := NInt 5 |};
              q_accuracyThreshold := None; q_choices := None; q_allow_other := None;
              q_file := None;
              q_parameters := Some [("start", PInt 7); ("unit", PStr "m")];
              q_appearance_attributes := None |} _ _ eq_refl eq_refl eq_refl)).
Defined.

(** ** Question: names and attributes that the tables settle *)

Lemma lower_case_not_reserved (v : string) :
  has_lower v = true -> str_in v RESERVED_NAMES = false.
Proof.
  intros H. apply str_in_not_In. intros Hin.
  assert (A : forallb (fun n => negb (has_lower n)) RESERVED_NAMES = true)
    by (vm_compute; reflexivity).
  rewrite forallb_forall in A. specialize (A v Hin). rewrite H in A. discriminate.
Qed.

(** X4. Every reserved name is written in capitals: a name with a
    lower-case letter passes [validate_name], whatever word it spells, and
    the name of a question plays no other part in its validation (with
    such a name the call is accepted exactly when it is with the name
    "q"). *)
Theorem X4_lower_case_names_pass :
  (forall v, has_lower v = true -> validate_name v = Ok v) /\
  (forall a, has_lower (q_name a) = true ->
             is_ok (Question_init a)
             = is_ok (Question_init
                        {| q_type := q_type a; q_name := "q"; q_label := q_label a;
                           q_required := q_required a; q_default := q_default a;
                           q_hint := q_hint a; q_logics := q_logics a;
                           q_calculation := q_calculation a; q_range := q_range a;
                           q_accuracyThreshold := q_accuracyThreshold a;
                           q_choices := q_choices a; q_allow_other := q_allow_other a;
                           q_file := q_file a; q_parameters := q_parameters a;
                           q_appearance_attributes := q_appearance_attributes a |})).
Proof.
  split.
  - intros v H. unfold validate_name. rewrite (lower_case_not_reserved v H). reflexivity.
  - intros a H. rewrite !Question_init_rules.
    match goal with
    | |- is_ok (if acceptable ?x then _ else _) = is_ok (if acceptable ?y then _ else _) =>
        assert (E : acceptable x = acceptable y)
    end.
    { unfold acceptable, appearance_ok. project.
      rewrite (lower_case_not_reserved _ H).
      replace (str_in "q" RESERVED_NAMES) with false by (vm_compute; reflexivity).
      reflexivity. }
    rewrite E. clear E. destruct (acceptable _); reflexivity.
Qed.

Lemma X4_lower_case_names_witness : validate_name "select" = Ok "select".
Proof. apply (proj1 X4_lower_case_names_pass). reflexivity. Defined.

Lemma attribute_not_in_relation (s : string) (t : option string) :
  attribute_in_relation s = false -> check_appearance_question_combo s t = false.
Proof.
  unfold attribute_in_relation, check_appearance_question_combo. intros H.
  destruct t as [t|]; [ | reflexivity ].
  induction Appearance_Question_Combos as [|c l IH]; [ reflexivity | ].
  cbn [existsb] in *. apply orb_false_iff in H. destruct H as [H1 H2].
  rewrite H1, (IH H2). reflexivity.
Qed.

(** X5. An appearance attribute is compared with the relation by its
    value, and the relation is written with member names: an attribute
    whose value differs from its name (as "horizontal-compact" or
    "no-calendar") is rejected on every question, and so is every
    attribute that the relation does not list.  The attributes a question
    can carry are those whose name is their value and which the relation
    lists. *)
Theorem X5_attributes_never_accepted :
  (forall a s, q_appearance_attributes a = Some s -> attribute_in_relation s = false ->
               Question_init a = Raise ValidationError) /\
  (forall n v, In (n, v) AppearanceAttributes -> n <> v ->
               attribute_in_relation v = false) /\
  filter attribute_in_relation (member_values AppearanceAttributes)
  = [ "multiline"; "minimal"; "year"; "horizontal"; "likert"; "compact";
      "signature"; "draw"; "autocomplete"; "predictivetext"; "nopredictivetext";
      "distress"; "spinner"; "numbers"; "calculator"; "annotate"; "hidden";
      "geocode"; "spike" ].
Proof.
  split; [ | split ].
  - intros a s Ha Hs. apply (incompatible_appearance_rejected a s Ha).
    apply attribute_not_in_relation. exact Hs.
  - intros n v H Hn. cbv [AppearanceAttributes] in H.
    repeat (destruct H as [H | H];
            [ injection H as <- <-;
              first [ exfalso; apply Hn; reflexivity | vm_compute; reflexivity ] | ]).
    destruct H.
  - vm_compute. reflexivity.
Qed.

Lemma X5_attributes_witness :
  Question_init (with_appearance color_question (Some "horizontal-compact"))
  = Raise ValidationError.
Proof.
  apply (proj1 X5_attributes_never_accepted _ "horizontal-compact").
  - reflexivity.
  - reflexivity.
Defined.

(** ** Items of a group and of a survey *)










(** ** The loop of [items_to_dfs] *)




















Lemma prep_for_excel_length (df : DataFrame) :
  List.length (rows (prep_for_excel df)) = List.length (rows df).
Proof.
  rewrite prep_for_excel_cells. unfold dropna_columns, keep_columns, map_cells.
  cbn [rows]. rewrite !length_map. reflexivity.
Qed.






(** ** The cells [prep_for_excel] writes *)

Lemma prep_cell_cases (v : PyVal) :
  prep_cell v
  = if isna v || str_in (py_str v) [""; "[]"; "{}"] then PNone else PStr (py_str v).
Proof.
  unfold prep_cell. destruct (isna v); [ reflexivity | ].
  cbn [orb]. generalize (py_str v). intros s.
  cbn [replace_cell py_eqb str_in existsb].
  destruct (String.eqb s "[]") eqn:E1.
  - rewrite orb_true_r. reflexivity.
  - destruct (String.eqb s "{}") eqn:E2.
    + rewrite !orb_true_r. reflexivity.
    + cbn [py_eqb]. rewrite !orb_false_r. destruct (String.eqb s ""); reflexivity.
Qed.

Lemma dict_get_map_cells (f : PyVal -> PyVal) (r : Dict) (c : string) :
  dict_get (map (fun kv => (fst kv, f (snd kv))) r) c = option_map f (dict_get r c).
Proof.
  induction r as [|[k v] r IH]; [ reflexivity | ].
  cbn [map dict_get fst snd]. destruct (String.eqb c k); [ reflexivity | exact IH ].
Qed.

Lemma isna_prep_cell (r : Dict) (c : string) :
  isna (cell (map (fun kv => (fst kv, prep_cell (snd kv))) r) c)
  = isna (prep_cell (cell r c)).
Proof.
  unfold cell. rewrite dict_get_map_cells. destruct (dict_get r c); reflexivity.
Qed.

Lemma prep_cell_not_None (v : PyVal) :
  isna (prep_cell v) = false <-> prep_cell v <> PNone.
Proof.
  rewrite prep_cell_cases. destruct (isna v || str_in (py_str v) [""; "[]"; "{}"]); cbn.
  - split; [ discriminate | intros H; contradiction H; reflexivity ].
  - split; [ discriminate | reflexivity ].
Qed.

(** X11. What [prep_for_excel] writes.  A cell is None when the value is
    missing or its text is empty, "[]" or "{}" (an empty list or dict), and
    the text [str(v)] of the value otherwise, so that every cell of the
    result is None or a text that is not empty; a column is kept exactly
    when one of its cells is written; no row is dropped. *)
Theorem X11_cells_of_a_sheet :
  (forall v, prep_cell v
             = if isna v || str_in (py_str v) [""; "[]"; "{}"]
               then PNone else PStr (py_str v)) /\
  (forall df r k v,
     In r (rows (prep_for_excel df)) -> In (k, v) r ->
     v = PNone \/ exists s, v = PStr s /\ s <> "") /\
  (forall df c,
     In c (columns (prep_for_excel df)) <->
     In c (columns df) /\ exists r, In r (rows df) /\ prep_cell (cell r c) <> PNone) /\
  (forall df, List.length (rows (prep_for_excel df)) = List.length (rows df)).
Proof.
  split; [ exact prep_cell_cases | ].
  split; [ | split; [ | exact prep_for_excel_length ] ].
  - intros df r k v Hr Hv. rewrite prep_for_excel_cells in Hr.
    unfold dropna_columns, keep_columns, map_cells in Hr. cbn [rows columns] in Hr.
    apply in_map_iff in Hr. destruct Hr as (r1 & <- & Hr1).
    apply filter_In in Hv. destruct Hv as [Hv _].
    apply in_map_iff in Hr1. destruct Hr1 as (r0 & <- & _).
    apply in_map_iff in Hv. destruct Hv as ([k0 v0] & Hv & _).
    cbn [fst snd] in Hv. injection Hv as _ <-.
    rewrite prep_cell_cases.
    destruct (isna v0 || str_in (py_str v0) [""; "[]"; "{}"]) eqn:E; [ left; reflexivity | ].
    right. exists (py_str v0). split; [ reflexivity | ].
    intros Hs. apply orb_false_elim in E. destruct E as [_ E].
    rewrite Hs in E. discriminate E.
  - intros df c. rewrite prep_for_excel_cells.
    unfold dropna_columns, keep_columns, map_cells. cbn [rows columns].
    rewrite filter_In, str_in_In, filter_In, existsb_exists.
    split.
    + intros (Hc & _ & r1 & Hr1 & Hn). split; [ exact Hc | ].
      apply in_map_iff in Hr1. destruct Hr1 as (r0 & <- & Hr0).
      exists r0. split; [ exact Hr0 | ].
      apply prep_cell_not_None. rewrite <- isna_prep_cell.
      apply negb_true_iff. exact Hn.
    + intros (Hc & r0 & Hr0 & Hn). split; [ exact Hc | split; [ exact Hc | ] ].
      exists (map (fun kv => (fst kv, prep_cell (snd kv))) r0).
      split; [ apply in_map; exact Hr0 | ].
      apply negb_true_iff. rewrite isna_prep_cell. apply prep_cell_not_None. exact Hn.
Qed.

Lemma X11_cells_of_a_sheet_witness :
  PStr "5" = PNone \/ exists s, PStr "5" = PStr s /\ s <> "".
Proof.
  apply (proj1 (proj2 X11_cells_of_a_sheet)
           (DataFrame_of [[("a", PList []); ("b", PInt 5)]])
           [("b", PStr "5")] "b" (PStr "5")).
  - vm_compute. left. reflexivity.
  - left. reflexivity.
Defined.

(** ** Rows to items *)

Lemma loopM_app {A S : Type} (f : A -> S -> result S) (l1 l2 : list A) (s : S) :
  loopM f (l1 ++ l2) s = (s' <- loopM f l1 s ;; loopM f l2 s').
Proof.
  revert s. induction l1 as [|x l1 IH]; intros s; [ reflexivity | ].
  cbn [app loopM]. destruct (f x s) as [s1|e]; [ cbn [bind]; apply IH | reflexivity ].
Qed.

Lemma list_set_app {A : Type} (pre l : list A) (i : nat) (x : A) :
  list_set (pre ++ l) (List.length pre + i) x = (pre ++ list_set l i x)%list.
Proof.
  induction pre as [|y pre IH]; [ reflexivity | ].
  cbn [app List.length Nat.add list_set]. rewrite IH. reflexivity.
Qed.

Lemma nth_app_plus {A : Type} (pre l : list A) (i : nat) (d : A) :
  nth (List.length pre + i) (pre ++ l) d = nth i l d.
Proof. induction pre as [|y pre IH]; [ reflexivity | exact IH ]. Qed.

(** A turn of the loop does the same after items already in [groups]. *)
Lemma group_items_row_prepend (pre : list Item) (row : Dict) (st : Grouping) :
  group_items_row row (prepend pre st)
  = (st' <- group_items_row row st ;; Ok (prepend pre st')).
Proof.
  unfold group_items_row.
  destruct (dict_item row "type") as [v|e]; [ cbn [bind] | reflexivity ].
  destruct (as_str v) as [t|e]; [ cbn [bind] | reflexivity ].
  destruct (startswith t "begin").
  - destruct (dict_item row "name") as [n|e]; [ cbn [bind] | reflexivity ].
    destruct (coerce_str n) as [name|]; [ | reflexivity ].
    destruct (QuestionGroup_init _) as [g|e]; [ cbn [bind] | reflexivity ].
    unfold prepend. cbn [groups current_group option_map].
    rewrite app_assoc, length_app. reflexivity.
  - assert (P : present (current_group (prepend pre st)) = present (current_group st)).
    { unfold prepend. cbn [current_group]. destruct (current_group st); reflexivity. }
    rewrite P. destruct (startswith t "end" && present (current_group st)).
    + reflexivity.
    + destruct (Question_parse_obj row) as [q|e]; [ cbn [bind] | reflexivity ].
      unfold prepend. cbn [groups current_group].
      destruct (current_group st) as [i|]; cbn [bind option_map groups current_group].
      * rewrite list_set_app, nth_app_plus. reflexivity.
      * rewrite app_assoc. reflexivity.
Qed.

Lemma loop_prepend (pre : list Item) (rows : list Dict) (st : Grouping) :
  loopM group_items_row rows (prepend pre st)
  = (st' <- loopM group_items_row rows st ;; Ok (prepend pre st')).
Proof.
  revert st. induction rows as [|row rows IH]; intros st; [ reflexivity | ].
  cbn [loopM]. rewrite group_items_row_prepend.
  destruct (group_items_row row st) as [s1|e]; [ cbn [bind]; apply IH | reflexivity ].
Qed.

Lemma group_items_after (rows : list Dict) (pre : list Item) :
  (st <- loopM group_items_row rows {| groups := pre; current_group := None |} ;;
   Ok (groups st))
  = (g <- group_items rows ;; Ok (pre ++ g)%list).
Proof.
  unfold group_items.
  replace {| groups := pre; current_group := None |}
    with (prepend pre {| groups := []; current_group := None |})
    by (unfold prepend; cbn; rewrite app_nil_r; reflexivity).
  rewrite loop_prepend.
  destruct (loopM group_items_row rows _) as [s|e]; reflexivity.
Qed.

(** X12. [group_items] works through a sheet part by part: when the
    first rows leave no group open, the items of the whole list are the
    items of the first rows followed by the items the remaining rows give
    on their own (and an error in the remaining rows is the error of the
    whole). *)
Theorem X12_rows_in_parts (rows1 rows2 : list Dict) (st1 : Grouping) :
  loopM group_items_row rows1 no_group = Ok st1 ->
  current_group st1 = None ->
  group_items rows1 = Ok (groups st1) /\
  group_items (rows1 ++ rows2)
  = (items2 <- group_items rows2 ;; Ok (groups st1 ++ items2)%list).
Proof.
  intros H Hc. split.
  - unfold group_items. fold no_group. rewrite H. reflexivity.
  - rewrite <- group_items_after. unfold group_items at 1. fold no_group.
    rewrite loopM_app, H. cbn [bind].
    destruct st1 as [g c]. cbn [current_group] in Hc. subst c. reflexivity.
Qed.

Lemma X12_rows_in_parts_witness :
  group_items ([survey_row "text" "q" "Q"]
               ++ [survey_row "begin group" "g" "G"; survey_row "note" "n" "N"])
  = Ok ([IQuestion (question "text" "q" "Q")]
        ++ [IGroup (group_head (GStr "group") "g" "G" None)
                   [IQuestion (question "note" "n" "N")]])%list.
Proof.
  apply (proj2 (X12_rows_in_parts
                  [survey_row "text" "q" "Q"]
                  [survey_row "begin group" "g" "G"; survey_row "note" "n" "N"]
                  {| groups := [IQuestion (question "text" "q" "Q")];
                     current_group := None |}
                  ltac:(vm_compute; reflexivity) eq_refl)).
Defined.

(** The question rows of an open group are added to it. *)
Lemma question_rows_in_group (qrows : list Dict) (qs : list Question)
    (pre : list Item) (g : GroupHead) (items : list Item) :
  Forall (fun r => exists t, dict_get r "type" = Some (PStr t) /\
                             startswith t "begin" = false /\
                             startswith t "end" = false) qrows ->
  mapM Question_parse_obj qrows = Ok qs ->
  loopM group_items_row qrows
    {| groups := (pre ++ [IGroup g items])%list;
       current_group := Some (List.length pre) |}
  = Ok {| groups := (pre ++ [IGroup g (items ++ map IQuestion qs)])%list;
          current_group := Some (List.length pre) |}.
Proof.
  intros F. revert qs items.
  induction F as [|r qrows (t & Ht & Hb & He) _ IH]; intros qs items M; cbn [mapM] in M.
  - injection M as <-. cbn [map loopM]. rewrite app_nil_r. reflexivity.
  - destruct (Question_parse_obj r) as [q|e] eqn:Q; [ cbn [bind] in M | discriminate M ].
    destruct (mapM Question_parse_obj qrows) as [qs'|e]; [ cbn [bind] in M | discriminate M ].
    injection M as <-. cbn [loopM].
    unfold group_items_row at 1. unfold dict_item. rewrite Ht. cbn [bind as_str].
    rewrite Hb, He, Q. cbn [andb bind current_group groups].
    replace (List.length pre) with (List.length pre + 0)%nat at 1 2 by lia.
    rewrite list_set_app, nth_app_plus. cbn [nth list_set items_append].
    rewrite (IH qs' (items ++ [IQuestion q])%list eq_refl).
    cbn [map]. rewrite <- app_assoc. reflexivity.
Qed.

Lemma begin_group_row (b : Dict) (name label : string) (st : Grouping) :
  dict_get b "type" = Some (PStr "begin group") ->
  dict_get b "name" = Some (PStr name) ->
  dict_get b "label" = Some (PStr label) ->
  group_items_row b st
  = Ok {| groups := (groups st ++ [IGroup (group_head (GStr "group") name label None) []])%list;
          current_group := Some (List.length (groups st)) |}.
Proof.
  intros Ht Hn Hl.
  apply (begin_row_appends_to_groups b st "begin group" name _ Ht eq_refl Hn).
  unfold field_of. rewrite Hl. reflexivity.
Qed.

(** X13. A group read from a sheet: after a row "begin group" with a name
    and a label, the rows that parse as Questions (their types starting
    neither with "begin" nor with "end") become the items of one
    QuestionGroup of type "group", in order.  The group is closed by the
    first row whose type starts with "end", whatever else that row holds
    (a question of the type "end" as well, which is then not kept), and it
    needs no closing row at the end of the sheet. *)
Theorem X13_group_of_questions (b e : Dict) (name label t : string)
    (qrows rest : list Dict) (qs : list Question) :
  dict_get b "type" = Some (PStr "begin group") ->
  dict_get b "name" = Some (PStr name) ->
  dict_get b "label" = Some (PStr label) ->
  Forall (fun r => exists t, dict_get r "type" = Some (PStr t) /\
                             startswith t "begin" = false /\
                             startswith t "end" = false) qrows ->
  mapM Question_parse_obj qrows = Ok qs ->
  dict_get e "type" = Some (PStr t) ->
  startswith t "end" = true ->
  group_items (b :: qrows)
  = Ok [IGroup (group_head (GStr "group") name label None) (map IQuestion qs)] /\
  group_items (b :: qrows ++ e :: rest)
  = (items <- group_items rest ;;
     Ok (IGroup (group_head (GStr "group") name label None) (map IQuestion qs) :: items)).
Proof.
  intros Ht Hn Hl F M He Hs.
  pose proof (question_rows_in_group qrows qs [] (group_head (GStr "group") name label None)
                [] F M) as L.
  cbn [app List.length] in L.
  split.
  - unfold group_items. cbn [loopM].
    rewrite (begin_group_row b name label _ Ht Hn Hl). cbn [bind groups app List.length].
    rewrite L. reflexivity.
  - unfold group_items at 1. cbn [loopM].
    rewrite (begin_group_row b name label _ Ht Hn Hl). cbn [bind groups app List.length].
    rewrite loopM_app, L. cbn [bind loopM].
    unfold group_items_row at 1. unfold dict_item. rewrite He. cbn [bind as_str].
    rewrite (end_is_not_begin t Hs), Hs. cbn [current_group present andb bind groups].
    apply (group_items_after rest
             [IGroup (group_head (GStr "group") name label None) (map IQuestion qs)]).
Qed.

Lemma X13_group_of_questions_witness :
  group_items [ survey_row "begin group" "g" "G"; survey_row "text" "q" "Q";
                survey_row "end" "anything" "at all"; survey_row "note" "n" "N" ]
  = Ok [ IGroup (group_head (GStr "group") "g" "G" None) [IQuestion (question "text" "q" "Q")];
         IQuestion (question "note" "n" "N") ].
Proof.
  apply (proj2 (X13_group_of_questions
                  (survey_row "begin group" "g" "G") (survey_row "end" "anything" "at all")
                  "g" "G" "end" [survey_row "text" "q" "Q"] [survey_row "note" "n" "N"]
                  [question "text" "q" "Q"]
                  eq_refl eq_refl eq_refl
                  ltac:(constructor; [ exists "text"; repeat split | constructor ])
                  ltac:(vm_compute; reflexivity) eq_refl eq_refl)).
Defined.

(** ** Rows that are never read *)

Lemma dict_get_In (r : Dict) (k : string) (v : PyVal) :
  dict_get r k = Some v -> In (k, v) r.
Proof.
  induction r as [|[k' v'] r IH]; [ discriminate | ].
  cbn [dict_get]. destruct (String.eqb k k') eqn:E.
  - intros H. injection H as ->. apply String.eqb_eq in E. subst k'. left; reflexivity.
  - intros H. right. exact (IH H).
Qed.

Lemma dict_get_filter (P : string * PyVal -> bool) (r : Dict) (k : string) (v : PyVal) :
  dict_get r k = Some v -> P (k, v) = true -> dict_get (filter P r) k = Some v.
Proof.
  intros H HP. induction r as [|[k' v'] r IH]; [ discriminate H | ].
  cbn [dict_get] in H. cbn [filter]. destruct (String.eqb k k') eqn:E.
  - injection H as ->. apply String.eqb_eq in E. subst k'.
    rewrite HP. cbn [dict_get]. rewrite String.eqb_refl. reflexivity.
  - destruct (P (k', v')); [ cbn [dict_get]; rewrite E | ]; exact (IH H).
Qed.

(** A row of a sheet that has a text in the column type is among the rows
    [drop_nan_dict] gives, with that text. *)
Lemma drop_nan_dict_keeps_type (df : DataFrame) (r : Dict) (t : string) :
  In "type" (columns df) -> In r (rows df) -> dict_get r "type" = Some (PStr t) ->
  exists r', In r' (drop_nan_dict df) /\ dict_get r' "type" = Some (PStr t).
Proof.
  intros Hc Hr Ht.
  assert (H1 : In r (rows (dropna_rows df))).
  { unfold dropna_rows. cbn [rows]. apply filter_In. split; [ exact Hr | ].
    apply existsb_exists. exists ("type", PStr t).
    split; [ apply dict_get_In; exact Ht | reflexivity ]. }
  unfold drop_nan_dict, to_dict_records, dropna_columns, keep_columns.
  cbn [rows]. change (columns (dropna_rows df)) with (columns df).
  set (keep := filter _ (columns df)).
  assert (Hk : str_in "type" keep = true).
  { apply str_in_In. apply filter_In. split; [ exact Hc | ].
    apply existsb_exists. exists r. split; [ exact H1 | ].
    unfold cell. rewrite Ht. reflexivity. }
  eexists. split.
  - apply in_map. apply in_map. exact H1.
  - apply dict_get_filter; [ | reflexivity ].
    apply dict_get_filter; [ exact Ht | exact Hk ].
Qed.

Lemma loop_stops {A S : Type} (f : A -> S -> result S) (l : list A) (x : A) (s : S) :
  In x l -> (forall s' s'', f x s' <> Ok s'') -> forall r, loopM f l s <> Ok r.
Proof.
  intros Hx Hf. apply in_split in Hx. destruct Hx as (l1 & l2 & ->).
  intros r. rewrite loopM_app.
  destruct (loopM f l1 s) as [s1|e]; [ cbn [bind loopM] | discriminate ].
  destruct (f x s1) as [s2|e] eqn:E; [ | discriminate ].
  contradiction (Hf s1 s2).
Qed.

Lemma begin_repeat_row (choice_dict : ChoiceDict) (b : Dict) (st st' : Grouping) :
  dict_get b "type" = Some (PStr "begin repeat") ->
  (row <- link_choices b choice_dict ;; group_items_row row st) <> Ok st'.
Proof.
  intros Ht. unfold link_choices, dict_item. rewrite Ht. cbn [bind as_str].
  change (existsb (startswith "begin repeat") choice_types) with false.
  cbn [andb bind]. unfold group_items_row, dict_item. rewrite Ht. cbn [bind as_str].
  change (startswith "begin repeat" "begin") with true. cbn iota.
  destruct (dict_get b "name") as [n|]; [ cbn [bind] | discriminate ].
  destruct (coerce_str n) as [name|]; [ | discriminate ].
  unfold QuestionGroup_init. cbn [ga_items mapM bind ga_type ga_repeat_count].
  change (validate_repeat (GStr (str_from 6 "begin repeat")) None) with (@Raise GType ValueError).
  cbn [recorded bind]. discriminate.
Qed.

(** X14. A workbook whose survey sheet has a row of type "begin repeat" is
    never parsed: [group_items] builds the group from the name, the type
    and the label of the row alone, and a QuestionGroup of type "repeat"
    without repeat_count is rejected, whatever the row's repeat_count cell
    says. *)
Theorem X14_begin_repeat_is_never_read (sh : Sheets) (r : Dict) :
  In "type" (columns (sh_survey sh)) ->
  In r (rows (sh_survey sh)) ->
  dict_get r "type" = Some (PStr "begin repeat") ->
  forall s, parse_excel sh <> Ok s.
Proof.
  intros Hc Hr Ht s.
  destruct (drop_nan_dict_keeps_type _ r _ Hc Hr Ht) as (b & Hb & Hbt).
  unfold parse_excel, get_survey_args.
  destruct (get_choice_dict (sh_choices sh)) as [cd|e]; [ cbn [bind] | discriminate ].
  destruct (loopM _ (drop_nan_dict (sh_survey sh)) _) as [st|e] eqn:L;
    [ | discriminate ].
  exfalso. revert L.
  apply (loop_stops _ _ b _ Hb). intros s' s''.
  apply (begin_repeat_row cd b s' s'' Hbt).
Qed.

Lemma X14_begin_repeat_witness :
  parse_excel repeat_sheets
  <> Ok {| s_name := "s"; s_label := "S";
           s_items := [IGroup (group_head (GStr "repeat") "g" "G" (Some (inr "3")))
                              [IQuestion color_question]] |}.
Proof.
  apply (X14_begin_repeat_is_never_read repeat_sheets
           [("type", PStr "begin repeat"); ("name", PStr "g"); ("label", PStr "G");
            ("repeat_count", PStr "3")]).
  - vm_compute. left. reflexivity.
  - vm_compute. left. reflexivity.
  - reflexivity.
Defined.

(** ** Surveys that are written but not read *)






(** ** Cells of a question row *)

Lemma field_error_not_parsed (f : QFields) :
  no_errors (validate_fields f) = false -> forall q, Question_validate f <> Ok q.
Proof.
  intros H q. unfold Question_validate.
  destruct (validate_by_type (validate_fields f)) as [v|e].
  - rewrite H. discriminate.
  - destruct (recorded e); discriminate.
Qed.

(** X16. [Question.parse_obj] never returns a Question for a row that
    has a text under "logics", "range" or "parameters": a cell of a sheet
    is not a list or a dict, so the field is in error.  ([items_to_dfs]
    writes the logics, the range and the parameters of a question as such
    texts.) *)
Theorem X16_cells_that_are_not_read (row : Dict) (k s : string) :
  In k ["logics"; "range"; "parameters"] ->
  dict_get row k = Some (PStr s) ->
  s <> "" ->
  forall q, Question_parse_obj row <> Ok q.
Proof.
  intros Hk Hc _. unfold Question_parse_obj. apply field_error_not_parsed.
  unfold no_errors, validate_fields, fields_of_row.
  cbn [v_type v_name v_label v_required v_default v_hint v_logics v_calculation v_range
       v_accuracyThreshold v_choices v_allow_other v_file v_parameters
       v_appearance_attributes f_type f_name f_label f_required f_default f_hint f_logics
       f_calculation f_range f_accuracyThreshold f_choices f_allow_other f_file
       f_parameters f_appearance_attributes].
  destruct Hk as [<-|[<-|[<-|[]]]].
  - replace (field_of (@coerce_container (list Logic)) row "logics") with (@Bad (list Logic))
      by (unfold field_of; rewrite Hc; reflexivity).
    cbn [optional_slot present]. rewrite !andb_false_r. reflexivity.
  - replace (field_of (@coerce_container Range) row "range") with (@Bad Range)
      by (unfold field_of; rewrite Hc; reflexivity).
    cbn [optional_slot present]. rewrite !andb_false_r. reflexivity.
  - replace (field_of (@coerce_container Dict) row "parameters") with (@Bad Dict)
      by (unfold field_of; rewrite Hc; reflexivity).
    cbn [optional_slot present]. rewrite !andb_false_r. reflexivity.
Qed.

Lemma X16_cells_witness :
  Question_parse_obj [("type", PStr "text"); ("name", PStr "q"); ("label", PStr "Q");
                      ("logics", PStr "[{'type': 'relevant', 'expression': '${a} = 1', 'message': None}]")]
  <> Ok (question "text" "q" "Q").
Proof.
  apply (X16_cells_that_are_not_read _ "logics"
           "[{'type': 'relevant', 'expression': '${a} = 1', 'message': None}]").
  - left. reflexivity.
  - reflexivity.
  - discriminate.
Defined.

(** ** [link_choices] at its edges *)

(** X17. [link_choices] on rows it cannot link.  A row without a type
    raises KeyError and a type that is not a str (a number cell) raises
    AttributeError; a type that starts with "rank", "select_one" or
    "select_multiple" and is not made of two words, as the bare type
    "select_one", raises ValueError; a type with "from_file" in it, or
    that starts with none of the three, leaves the row as it is; and a
    list name the choices sheet does not have gives an empty list of
    choices. *)
Theorem X17_rows_that_are_not_linked (row : Dict) (choice_dict : ChoiceDict) :
  (dict_get row "type" = None -> link_choices row choice_dict = Raise KeyError) /\
  (forall v, dict_get row "type" = Some v -> (forall t, v <> PStr t) ->
             link_choices row choice_dict = Raise AttributeError) /\
  (forall t, dict_get row "type" = Some (PStr t) ->
             existsb (startswith t) choice_types = true ->
             contains t "from_file" = false ->
             List.length (split t) <> 2%nat ->
             link_choices row choice_dict = Raise ValueError) /\
  (forall t, dict_get row "type" = Some (PStr t) ->
             existsb (startswith t) choice_types = false \/ contains t "from_file" = true ->
             link_choices row choice_dict = Ok row) /\
  (forall t type_root group_name,
     dict_get row "type" = Some (PStr t) ->
     existsb (startswith t) choice_types = true ->
     contains t "from_file" = false ->
     split t = [type_root; group_name] ->
     (forall k cs, In (k, cs) choice_dict -> k <> PStr group_name) ->
     link_choices row choice_dict
     = Ok (dict_set (dict_set row "type" (PStr type_root)) "choices" (PList []))).
Proof.
  unfold link_choices, dict_item.
  split; [ | split; [ | split; [ | split ] ] ].
  - intros ->. reflexivity.
  - intros v -> Hv. cbn [bind]. destruct v; try reflexivity.
    contradiction (Hv s). reflexivity.
  - intros t -> H1 H2 H3. cbn [bind as_str]. rewrite H1, H2. cbn [negb andb].
    destruct (split t) as [|a [|b [|c l]]]; try reflexivity.
    contradiction H3. reflexivity.
  - intros t -> H. cbn [bind as_str].
    destruct H as [-> | ->]; [ reflexivity | ].
    rewrite andb_false_r. reflexivity.
  - intros t type_root group_name -> H1 H2 H3 H4. cbn [bind as_str].
    rewrite H1, H2, H3. cbn [negb andb].
    replace (choice_dict_get choice_dict group_name) with (@nil Choice); [ reflexivity | ].
    induction choice_dict as [|[k cs] cd IH]; [ reflexivity | ].
    cbn [choice_dict_get].
    destruct (py_eqb k (PStr group_name)) eqn:E.
    + exfalso. apply (H4 k cs); [ left; reflexivity | ].
      destruct k; try discriminate E. cbn [py_eqb] in E.
      apply String.eqb_eq in E. subst. reflexivity.
    + apply IH. intros k' cs' Hin. apply (H4 k' cs'). right. exact Hin.
Qed.

Lemma X17_rows_witness :
  link_choices (survey_row "select_one" "color" "Color") [(PStr "color", [red; blue])]
  = Raise ValueError.
Proof.
  apply (proj1 (proj2 (proj2 (X17_rows_that_are_not_linked
           (survey_row "select_one" "color" "Color") [(PStr "color", [red; blue])])))
           "select_one");
    [ reflexivity | reflexivity | reflexivity | vm_compute; discriminate ].
Defined.

(** ** The session state *)

Lemma st_init_null_keeps (names : list string) (ss : Dict) (k : string) (v : PyVal) :
  dict_get ss k = Some v -> dict_get (st_init_null names ss) k = Some v.
Proof.
  unfold st_init_null. revert ss.
  induction names as [|n names IH]; intros ss H; [ exact H | ].
  cbn [fold_left]. apply IH.
  destruct (dict_get ss n) eqn:E; [ exact H | ].
  rewrite dict_get_set_other; [ exact H | ].
  intros ->. rewrite E in H. discriminate H.
Qed.

(** X18. [st_init_null] only fills in: a name that is in the session
    state keeps its value (so "run", set just before to a dict, is not
    reset), a name that is not gets None, no other name is touched, and a
    second call changes nothing. *)
Theorem X18_session_state_defaults (names : list string) (ss : Dict) :
  (forall k v, dict_get ss k = Some v -> dict_get (st_init_null names ss) k = Some v) /\
  (forall k, In k names -> dict_get ss k = None ->
             dict_get (st_init_null names ss) k = Some PNone) /\
  (forall k, ~ In k names -> dict_get (st_init_null names ss) k = dict_get ss k) /\
  st_init_null names (st_init_null names ss) = st_init_null names ss.
Proof.
  split; [ intros k v; apply st_init_null_keeps | ].
  assert (P2 : forall names ss k, In k names -> dict_get ss k = None ->
                                  dict_get (st_init_null names ss) k = Some PNone).
  { clear. induction names as [|n names IH]; intros ss k Hk H; [ contradiction Hk | ].
    change (st_init_null (n :: names) ss)
      with (st_init_null names (match dict_get ss n with
                                | None => dict_set ss n PNone
                                | Some _ => ss
                                end)).
    destruct (String.eqb k n) eqn:E.
    - apply String.eqb_eq in E. subst n. rewrite H.
      apply st_init_null_keeps. apply dict_get_set.
    - apply String.eqb_neq in E. destruct Hk as [Hk | Hk]; [ contradiction E; auto | ].
      apply IH; [ exact Hk | ].
      destruct (dict_get ss n); [ exact H | ].
      rewrite dict_get_set_other; [ exact H | exact E ]. }
  split; [ apply P2 | ].
  split.
  - revert ss. induction names as [|n names IH]; intros ss k Hk; [ reflexivity | ].
    change (st_init_null (n :: names) ss)
      with (st_init_null names (match dict_get ss n with
                                | None => dict_set ss n PNone
                                | Some _ => ss
                                end)).
    rewrite IH by (intros H; apply Hk; right; exact H).
    destruct (dict_get ss n); [ reflexivity | ].
    apply dict_get_set_other. intros ->. apply Hk. left. reflexivity.
  - assert (Q : forall l s, (forall k, In k l -> dict_get s k <> None) ->
                            st_init_null l s = s).
    { clear. induction l as [|n l IH]; intros s H; [ reflexivity | ].
      change (st_init_null (n :: l) s)
        with (st_init_null l (match dict_get s n with
                              | None => dict_set s n PNone
                              | Some _ => s
                              end)).
      destruct (dict_get s n) eqn:E.
      - apply IH. intros k Hk. apply H. right. exact Hk.
      - contradiction (H n (or_introl eq_refl)). }
    apply Q. intros k Hk.
    destruct (dict_get ss k) as [v|] eqn:E.
    + rewrite (st_init_null_keeps names ss k v E). discriminate.
    + rewrite (P2 names ss k Hk E). discriminate.
Qed.

Lemma X18_session_state_witness :
  dict_get (st_init_null ["file_id"; "INSTRUCTIONS"; "run"; "assistant"; "output_content";
                          "thread"]
              [("session_id", PStr "0"); ("run", PDict [("status", PNone)]);
               ("messages", PList []); ("retry_error", PInt 0); ("thread_id", PNone)])
           "run"
  = Some (PDict [("status", PNone)]).
Proof.
  apply (proj1 (X18_session_state_defaults
                  ["file_id"; "INSTRUCTIONS"; "run"; "assistant"; "output_content"; "thread"]
                  [("session_id", PStr "0"); ("run", PDict [("status", PNone)]);
                   ("messages", PList []); ("retry_error", PInt 0); ("thread_id", PNone)])).
  reflexivity.
Defined.

(** ** The column type of the survey frame *)
















Lemma adds_rows_choices (st st' : Lists) (cells : list PyVal) (records : list Dict) :
  adds_rows st st' cells -> adds_rows st (extend_choices st' records) cells.
Proof. intros H. exact H. Qed.






(** ** A survey with a group, saved and parsed *)






(** ** The rows of a sheet, written and read *)



Lemma filter_map_swap {A B : Type} (p : B -> bool) (f : A -> B) (l : list A) :
  filter p (map f l) = map f (filter (fun x => p (f x)) l).
Proof.
  induction l as [|x l IH]; [ reflexivity | ].
  cbn [map filter]. destruct (p (f x)); cbn [map]; rewrite IH; reflexivity.
Qed.








Lemma prep_cell_str (u : string) :
  prep_cell (PStr u) = PNone \/ prep_cell (PStr u) = PStr u.
Proof.
  rewrite prep_cell_cases. cbn [isna orb py_str].
  destruct (str_in u [""; "[]"; "{}"]); [ left | right ]; reflexivity.
Qed.



(** ** The choices sheet, read *)

Lemma distinct_seen (seen l : list PyVal) (v : PyVal) :
  In v seen -> In v (distinct seen l).
Proof.
  revert seen. induction l as [|x l IH]; intros seen H; [ exact H | ].
  cbn [distinct]. destruct (existsb (py_eqb x) seen); apply IH; [ exact H | ].
  apply in_or_app. left. exact H.
Qed.

Lemma distinct_keeps_str (seen : list PyVal) (names : list string) (L : string) :
  In L names -> In (PStr L) (distinct seen (map PStr names)).
Proof.
  revert seen. induction names as [|n names IH]; intros seen H; [ contradiction H | ].
  cbn [map distinct]. destruct H as [-> | H].
  - destruct (existsb (py_eqb (PStr L)) seen) eqn:E.
    + apply distinct_seen. apply existsb_exists in E. destruct E as (w & Hw & E).
      destruct w; try discriminate E. cbn [py_eqb] in E. apply String.eqb_eq in E.
      subst. exact Hw.
    + apply distinct_seen. apply in_or_app. right. left. reflexivity.
  - destruct (existsb (py_eqb (PStr n)) seen); apply IH; exact H.
Qed.

Lemma distinct_from (seen : list PyVal) (names : list string) (k : PyVal) :
  In k (distinct seen (map PStr names)) -> In k seen \/ exists L, k = PStr L /\ In L names.
Proof.
  revert seen. induction names as [|n names IH]; intros seen H; [ left; exact H | ].
  cbn [map distinct] in H. destruct (existsb (py_eqb (PStr n)) seen).
  - destruct (IH _ H) as [Hs | (L & -> & HL)]; [ left; exact Hs | ].
    right. exists L. split; [ reflexivity | right; exact HL ].
  - destruct (IH _ H) as [Hs | (L & -> & HL)].
    + apply in_app_or in Hs. destruct Hs as [Hs | [<- | []]]; [ left; exact Hs | ].
      right. exists n. split; [ reflexivity | left; reflexivity ].
    + right. exists L. split; [ reflexivity | right; exact HL ].
Qed.

Lemma mapM_map_Ok {A B C : Type} (f : B -> result C) (h : A -> B) (F : A -> C)
    (l : list A) :
  (forall x, In x l -> f (h x) = Ok (F x)) -> mapM f (map h l) = Ok (map F l).
Proof.
  induction l as [|x l IH]; intros H; [ reflexivity | ].
  cbn [map mapM]. rewrite (H x (or_introl eq_refl)). cbn [bind].
  rewrite IH by (intros y Hy; apply H; right; exact Hy). reflexivity.
Qed.

(** The rows of one list, without the column list_name, parse to the
    choices. *)
Lemma group_choices (lk : list (string * Choice)) :
  mapM Choice_parse_obj
    (drop_nan_dict
       {| columns := ["value"; "label"];
          rows := map (fun p : string * Choice =>
                         [("value", PStr (c_value (snd p)));
                          ("label", PStr (c_label (snd p)))]) lk |})
  = Ok (map snd lk).
Proof.
  unfold drop_nan_dict, to_dict_records, dropna_columns, keep_columns, dropna_rows.
  cbn [rows columns].
  set (row3 := fun p : string * Choice =>
                 [("value", PStr (c_value (snd p))); ("label", PStr (c_label (snd p)))]).
  assert (F : filter (fun r : list (string * PyVal) =>
                        existsb (fun kv => negb (isna (snd kv))) r)
                     (map row3 lk) = map row3 lk).
  { induction lk as [|p lk IH]; [ reflexivity | ]. cbn [map filter]. cbn [row3 existsb snd isna negb orb].
    rewrite IH. reflexivity. }
  rewrite F. rewrite !map_map.
  destruct lk as [|p0 lk0]; [ reflexivity | ].
  set (lk := p0 :: lk0).
  assert (K : filter (fun c => existsb (fun r => negb (isna (cell r c))) (map row3 lk))
                     ["value"; "label"] = ["value"; "label"]) by reflexivity.
  rewrite K. apply mapM_map_Ok. intros [n [v lb]] _. reflexivity.
Qed.

Lemma get_choice_dict_frame (l : list (string * Choice)) :
  get_choice_dict (choices_frame l)
  = Ok (map (fun k => (k, match k with
                          | PStr list_name => choices_of l list_name
                          | _ => []
                          end))
            (distinct [] (map PStr (map fst l)))).
Proof.
  unfold get_choice_dict.
  set (row2 := fun p : string * Choice =>
                 [("list_name", PStr (fst p)); ("value", PStr (c_value (snd p)));
                  ("label", PStr (c_label (snd p)))]).
  assert (R : rename "name" "value" (choices_frame l)
              = {| columns := ["list_name"; "value"; "label"]; rows := map row2 l |}).
  { unfold rename, choices_frame. cbn [columns rows]. f_equal.
    rewrite map_map. apply map_ext. intros p. reflexivity. }
  rewrite R. unfold groupby. cbn [columns rows].
  change (str_in "list_name" ["list_name"; "value"; "label"]) with true. cbn iota.
  cbn [bind].
  assert (K : filter (fun v => negb (isna v)) (map (fun r => cell r "list_name") (map row2 l))
              = map PStr (map fst l)).
  { clear R. rewrite !map_map. induction l as [|p l IH]; [ reflexivity | ].
    cbn [map filter]. cbn [row2 cell dict_get String.eqb Ascii.eqb Bool.eqb isna negb].
    f_equal. exact IH. }
  rewrite K.
  apply mapM_map_Ok. intros k Hk.
  destruct (distinct_from [] (map fst l) k Hk) as [[] | (L & -> & _)].
  cbn [fst snd].
  unfold drop_column. cbn [columns rows].
  change (str_in "list_name" ["list_name"; "value"; "label"]) with true. cbn iota.
  cbn [bind].
  assert (G : keep_columns
                (filter (fun c' => negb (String.eqb "list_name" c'))
                        ["list_name"; "value"; "label"])
                {| columns := ["list_name"; "value"; "label"];
                   rows := filter (fun r => py_eqb (cell r "list_name") (PStr L))
                                  (map row2 l) |}
              = {| columns := ["value"; "label"];
                   rows := map (fun p : string * Choice =>
                                  [("value", PStr (c_value (snd p)));
                                   ("label", PStr (c_label (snd p)))])
                               (filter (fun p => String.eqb (fst p) L) l) |}).
  { unfold keep_columns. cbn [columns rows]. f_equal.
    rewrite filter_map_swap, map_map. apply map_ext. intros p. reflexivity. }
  rewrite G, group_choices. reflexivity.
Qed.

Lemma choices_of_unknown (l : list (string * Choice)) (L : string) :
  ~ In L (map fst l) -> choices_of l L = [].
Proof.
  unfold choices_of. induction l as [|p l IH]; intros H; [ reflexivity | ].
  cbn [filter map]. destruct (String.eqb (fst p) L) eqn:E.
  - exfalso. apply H. left. apply String.eqb_eq. exact E.
  - apply IH. intros Hin. apply H. right. exact Hin.
Qed.

(** X21. The choices sheet, read: for a sheet with the columns list_name,
    name and label and a text in every cell, [get_choice_dict] returns a
    dict that gives for every list name the choices of the rows with that
    list name, in the order of the rows, and no choice for a name the
    sheet does not have. *)
Theorem X21_choices_of_a_sheet (l : list (string * Choice)) :
  exists choice_dict,
    get_choice_dict (choices_frame l) = Ok choice_dict /\
    forall list_name, choice_dict_get choice_dict list_name = choices_of l list_name.
Proof.
  eexists. split; [ apply get_choice_dict_frame | ].
  intros L.
  assert (H : forall keys,
             (forall k, In k keys -> exists K, k = PStr K) ->
             choice_dict_get
               (map (fun k => (k, match k with
                                  | PStr list_name => choices_of l list_name
                                  | _ => []
                                  end)) keys) L
             = if existsb (fun k => py_eqb k (PStr L)) keys then choices_of l L else []).
  { induction keys as [|k keys IH]; intros Hk; [ reflexivity | ].
    cbn [map choice_dict_get existsb].
    destruct (Hk k (or_introl eq_refl)) as [K ->].
    cbn [py_eqb]. destruct (String.eqb K L) eqn:E.
    - apply String.eqb_eq in E. subst K. reflexivity.
    - cbn [orb]. apply IH. intros k' Hk'. apply Hk. right. exact Hk'. }
  rewrite H.
  - destruct (existsb _ _) eqn:E; [ reflexivity | ].
    symmetry. apply choices_of_unknown. intros Hin.
    apply (distinct_keeps_str [] _ _) in Hin.
    apply not_true_iff_false in E. apply E. apply existsb_exists.
    exists (PStr L). split; [ exact Hin | ]. cbn [py_eqb]. apply String.eqb_refl.
  - intros k Hk. destruct (distinct_from [] (map fst l) k Hk) as [[] | (K & -> & _)].
    exists K. reflexivity.
Qed.

(** ** A question row with choices *)

Lemma coerce_choices_dicts (cs : list Choice) :
  coerce_choices (PList (map Choice_dict cs)) = Some cs.
Proof.
  unfold coerce_choices.
  assert (H : mapM (fun x => match x with
                             | PDict d => Choice_parse_obj d
                             | _ => Raise ValidationError
                             end) (map Choice_dict cs) = Ok cs).
  { induction cs as [|[v l] cs IH]; [ reflexivity | ].
    cbn [map mapM]. rewrite IH. reflexivity. }
  rewrite H. reflexivity.
Qed.

(** X22. A question row with choices, read: a row of type "select_one
    colors" (or rank, or select_multiple; the list name one word, no
    "from_file" in the type) with a name that is not reserved and a label
    goes through [link_choices] and [Question.parse_obj] to the Question
    of that type with the choices the choices sheet has for the list, and
    with an empty list of choices, without an error, when the sheet does
    not have the list. *)
Theorem X22_choice_question_row (choice_dict : ChoiceDict)
    (t list_name name label : string) :
  In t choice_types ->
  split list_name = [list_name] ->
  contains (t ++ " " ++ list_name) "from_file" = false ->
  str_in name RESERVED_NAMES = false ->
  (row <- link_choices (survey_row (t ++ " " ++ list_name) name label) choice_dict ;;
   Question_parse_obj row)
  = Ok {| q_type := t; q_name := name; q_label := label;
          q_required := None; q_default := None; q_hint := None; q_logics := None;
          q_calculation := None; q_range := None; q_accuracyThreshold := None;
          q_choices := Some (choice_dict_get choice_dict list_name);
          q_allow_other := None; q_file := None;
          q_parameters := None; q_appearance_attributes := None |}.
Proof.
  intros Ht Hs Hf Hn.
  unfold link_choices, dict_item, survey_row.
  cbn [dict_get String.eqb Ascii.eqb Bool.eqb bind as_str].
  assert (E : existsb (startswith (t ++ " " ++ list_name)) choice_types = true)
    by (destruct Ht as [<-|[<-|[<-|[]]]]; reflexivity).
  rewrite E, Hf. cbn [negb andb].
  assert (S : split (t ++ " " ++ list_name) = t :: split list_name)
    by (destruct Ht as [<-|[<-|[<-|[]]]]; reflexivity).
  rewrite S, Hs. cbn [bind dict_set String.eqb Ascii.eqb Bool.eqb].
  unfold Question_parse_obj, Question_validate, fields_of_row, field_of.
  cbn [dict_get String.eqb Ascii.eqb Bool.eqb coerce_type coerce_str].
  rewrite coerce_choices_dicts.
  assert (V : validate_name name = Ok name)
    by (unfold validate_name; rewrite Hn; reflexivity).
  unfold validate_by_type. project. unfold no_errors. project. rewrite !V.
  destruct Ht as [<-|[<-|[<-|[]]]]; reflexivity.
Qed.

Lemma X22_choice_question_witness :
  (row <- link_choices (survey_row ("select_one" ++ " " ++ "color") "color" "Color")
                       [(PStr "colour", [red; blue])] ;;
   Question_parse_obj row)
  = Ok {| q_type := "select_one"; q_name := "color"; q_label := "Color";
          q_required := None; q_default := None; q_hint := None; q_logics := None;
          q_calculation := None; q_range := None; q_accuracyThreshold := None;
          q_choices := Some [];
          q_allow_other := None; q_file := None;
          q_parameters := None; q_appearance_attributes := None |}.
Proof.
  apply (X22_choice_question_row [(PStr "colour", [red; blue])]
           "select_one" "color" "color" "Color").
  - right. left. reflexivity.
  - reflexivity.
  - reflexivity.
  - vm_compute. reflexivity.
Defined.

(** ** The settings sheet *)

Lemma prep_cell_blank (u : string) :
  str_in u [""; "[]"; "{}"] = true -> prep_cell (PStr u) = PNone.
Proof. intros H. rewrite prep_cell_cases. cbn [isna orb py_str]. rewrite H. reflexivity. Qed.

Lemma settings_sheet (name label : string) :
  read_excel (prep_for_excel
                (DataFrame_of [[("form_id", PStr name); ("form_title", PStr label)]]))
  = read_excel (dropna_columns
                  {| columns := ["form_id"; "form_title"];
                     rows := [[("form_id", prep_cell (PStr name));
                               ("form_title", prep_cell (PStr label))]] |}).
Proof. rewrite prep_for_excel_cells. reflexivity. Qed.

(** With a blank name or label the settings sheet lacks the column, or
    is empty. *)
Lemma blank_settings (name label : string) (st : Grouping) :
  str_in name [""; "[]"; "{}"] || str_in label [""; "[]"; "{}"] = true ->
  forall a,
    match to_dict_records
            (read_excel (prep_for_excel
               (DataFrame_of [[("form_id", PStr name); ("form_title", PStr label)]])))
    with
    | [] => Raise IndexError
    | settings_dict :: _ =>
        name <- dict_item settings_dict "form_id" ;;
        label <- dict_item settings_dict "form_title" ;;
        Ok {| a_name := name; a_label := label; a_items := groups st |}
    end <> Ok a.
Proof.
  intros H a. rewrite settings_sheet.
  destruct (prep_cell_str name) as [En | En]; destruct (prep_cell_str label) as [El | El];
    rewrite En, El.
  - discriminate.
  - discriminate.
  - discriminate.
  - exfalso. apply orb_true_iff in H. destruct H as [H | H].
    + rewrite (prep_cell_blank name H) in En. discriminate En.
    + rewrite (prep_cell_blank label H) in El. discriminate El.
Qed.

(** X23. A survey whose name or label is the empty text (or "[]", or
    "{}") is written but not read back: [prep_for_excel] blanks the cell,
    the column form_id or form_title is dropped from the settings sheet,
    and [get_survey_args] raises KeyError for it (IndexError when the
    sheet is left empty), unless the items have raised before. *)
Theorem X23_blank_name_or_label (s : Survey) :
  str_in (s_name s) [""; "[]"; "{}"] || str_in (s_label s) [""; "[]"; "{}"] = true ->
  forall s', save_and_parse s <> Ok s'.
Proof.
  intros H s'. unfold save_and_parse, get_dfs.
  destruct (items_to_dfs (s_items s)) as [dfs|e]; [ cbn [bind] | discriminate ].
  unfold parse_excel, get_survey_args, read_workbook. cbn [sh_survey sh_choices sh_settings].
  destruct (get_choice_dict _) as [cd|e]; [ cbn [bind] | discriminate ].
  destruct (loopM _ _ _) as [st|e]; [ cbn [bind] | discriminate ].
  pose proof (blank_settings (s_name s) (s_label s) st H) as B.
  destruct (match to_dict_records _ with [] => _ | _ :: _ => _ end) as [a|e];
    [ contradiction (B a); reflexivity | discriminate ].
Qed.

Lemma X23_blank_name_witness :
  save_and_parse {| s_name := ""; s_label := "S"; s_items := [IQuestion color_question] |}
  <> Ok {| s_name := ""; s_label := "S"; s_items := [IQuestion color_question] |}.
Proof.
  apply (X23_blank_name_or_label
           {| s_name := ""; s_label := "S"; s_items := [IQuestion color_question] |}).
  reflexivity.
Defined.
